(** * VibratorController JNI layer: a shallow embedding and its properties

    Source: services/core/jni/com_android_server_vibrator_VibratorController.cpp

    The file embeds the native half of the vibrator controller:
    the PWLE (piecewise-linear envelope) loop of [vibratorPerformPwleEffect]
    with its two braking predicates, the result mapping of [vibratorOn] and
    [vibratorPerformPwleEffect], the snapshot built by [vibratorGetInfo], and
    the completion callback of [VibratorControllerWrapper::createCallback]
    together with the wrapper's construction and destruction. *)

From Stdlib Require Import ZArith List Bool Lia String.
From Stdlib Require Import Floats.SpecFloat.
From stdpp Require Import base option list gmap.

Local Open Scope Z_scope.

(** ** Machine integers

    [jint]/[int32_t] and [jlong]/[int64_t] values are integers of [Z] inside
    their range; [size_t] is unsigned 64-bit.  Arithmetic that the source
    performs on them is written with its wrap-around. *)

Definition jint_min : Z := - 2 ^ 31.
Definition jint_max : Z := 2 ^ 31 - 1.

Definition is_jint (x : Z) : bool := (jint_min <=? x) && (x <=? jint_max).

(** [a - b] on [size_t]. *)
Definition size_t_sub (a b : Z) : Z := (a - b) mod 2 ^ 64.

(** [a + b] on the 64-bit signed representation of
    [std::chrono::milliseconds]. *)
Definition int64_add (a b : Z) : Z := (a + b + 2 ^ 63) mod 2 ^ 64 - 2 ^ 63.

(** A Java array holds at most [jint_max] elements: [GetArrayLength] returns
    a [jsize]. *)
Definition is_jarray {A : Type} (a : list A) : bool :=
  Z.of_nat (length a) <=? jint_max.

(** ** IEEE 754 binary32 values

    [jfloat] and C++ [float] are binary32.  [spec_float] carries the IEEE
    comparison semantics the source relies on: [-0 == 0] holds and every
    comparison with NaN is false. *)

Module Float32.
Definition float : Type := spec_float.

Definition prec : Z := 24.
Definition emax : Z := 128.

Definition valid (x : float) : bool := valid_binary prec emax x.

(** The literal [0] converted to [float]. *)
Definition zero : float := S754_zero false.
Definition neg_zero : float := S754_zero true.
(** The macro [NAN]. *)
Definition NAN : float := S754_nan.
(** 0.5f = 2^23 * 2^-24 *)
Definition half : float := S754_finite false 8388608 (-24).
(** 1.0f = 2^23 * 2^-23 *)
Definition one : float := S754_finite false 8388608 (-23).

(** [a == b] *)
Definition eqb (a b : float) : bool := SFeqb a b.
(** [a > b] *)
Definition gtb (a b : float) : bool :=
  match SFcompare a b with
  | Some Gt => true
  | _ => false
  end.

Definition is_nan (a : float) : bool :=
  match a with
  | S754_nan => true
  | _ => false
  end.
End Float32.

Abbreviation float := Float32.float.

(** ** AIDL data of the PWLE interface *)

(** [aidl::Braking] is an [int32_t]-backed enumeration; the source obtains
    its values by [static_cast] from a [jint]. *)
Definition Braking : Type := Z.

Record ActivePwle : Type := mkActivePwle {
  startAmplitude : float;
  endAmplitude : float;
  startFrequency : float;
  endFrequency : float;
  duration : Z
}.

Record BrakingPwle : Type := mkBrakingPwle {
  braking_kind : Braking;
  braking_duration : Z
}.

(** [aidl::PrimitivePwle] is a union of the two. *)
Inductive PrimitivePwle : Type :=
| PrimitivePwle_active (pwle : ActivePwle)
| PrimitivePwle_braking (pwle : BrakingPwle).

Definition is_braking (p : PrimitivePwle) : bool :=
  match p with
  | PrimitivePwle_braking _ => true
  | PrimitivePwle_active _ => false
  end.

(** The Java object [android.os.vibrator.RampSegment], seen through the
    five fields that [sRampClassInfo] names. *)
Record RampSegment : Type := mkRampSegment {
  mStartAmplitude : float;
  mEndAmplitude : float;
  mStartFrequency : float;
  mEndFrequency : float;
  mDuration : Z
}.

Definition brakingPwle (braking : Braking) (duration : Z) : BrakingPwle :=
  {| braking_kind := braking; braking_duration := duration |}.

Definition activePwleFromJavaPrimitive (ramp : RampSegment) : ActivePwle :=
  {| startAmplitude := mStartAmplitude ramp;
     endAmplitude := mEndAmplitude ramp;
     startFrequency := mStartFrequency ramp;
     endFrequency := mEndFrequency ramp;
     duration := mDuration ramp |}.

(** State of the PWLE loop: the vector [primitives] and [totalDuration]. *)
Record PwleAcc : Type := mkPwleAcc {
  primitives : list PrimitivePwle;
  totalDuration : Z
}.

Section Pwle.

(** The value of the enumerator [aidl::Braking::NONE], declared in the
    AIDL interface outside this file. *)
Variable Braking_NONE : Braking.

(** Return true if braking is not NONE and the active PWLE starts and ends
    with zero amplitude. *)
Definition shouldBeReplacedWithBraking (activePwle : ActivePwle) (braking : Braking) : bool :=
  negb (braking =? Braking_NONE)
  && Float32.eqb (startAmplitude activePwle) Float32.zero
  && Float32.eqb (endAmplitude activePwle) Float32.zero.

(** Return true if braking is not NONE and the active PWLE only ends with
    zero amplitude. *)
Definition shouldAddLastBraking (lastActivePwle : ActivePwle) (braking : Braking) : bool :=
  negb (braking =? Braking_NONE)
  && Float32.gtb (startAmplitude lastActivePwle) Float32.zero
  && Float32.eqb (endAmplitude lastActivePwle) Float32.zero.

(** One iteration of the loop of [vibratorPerformPwleEffect], at index [i]
    of an array of [size] elements. *)
Definition pwle_loop_body (braking : Braking) (size i : Z)
    (element : RampSegment) (acc : PwleAcc) : PwleAcc :=
  let activePwle := activePwleFromJavaPrimitive element in
  let pushed :=
    if (0 <? i) && shouldBeReplacedWithBraking activePwle braking
    then primitives acc ++ [PrimitivePwle_braking (brakingPwle braking (duration activePwle))]
    else primitives acc ++ [PrimitivePwle_active activePwle] in
  let total := int64_add (totalDuration acc) (duration activePwle) in
  let pushed_last :=
    if (i =? size_t_sub size 1) && shouldAddLastBraking activePwle braking
    then pushed ++ [PrimitivePwle_braking (brakingPwle braking 0)]
    else pushed in
  {| primitives := pushed_last; totalDuration := total |}.

(** The loop from index [i] on; [elements] are the array elements
    [waveform[i]], [waveform[i+1]], ... still to be visited. *)
Fixpoint pwle_loop (braking : Braking) (size i : Z)
    (elements : list RampSegment) (acc : PwleAcc) : PwleAcc :=
  match elements with
  | [] => acc
  | element :: rest =>
      pwle_loop braking size (i + 1) rest (pwle_loop_body braking size i element acc)
  end.

(** The primitives and the total duration that [vibratorPerformPwleEffect]
    has built when it reaches the HAL call. *)
Definition pwle_compile (waveform : list RampSegment) (brakingId : Z) : PwleAcc :=
  let braking : Braking := brakingId in
  let size := Z.of_nat (length waveform) in
  pwle_loop braking size 0 waveform {| primitives := []; totalDuration := 0 |}.

End Pwle.

(** ** The HAL boundary *)

(** Modelled from the spec: [vibrator::HalResult<T>] is declared in
    vibratorservice, outside this file.  It "is one of Ok(T), Unsupported,
    Failed(reason)"; the source uses its [isOk], [isUnsupported], [value]
    and [valueOr]. *)
Inductive HalResult (T : Type) : Type :=
| HalResult_ok (v : T)
| HalResult_unsupported
| HalResult_failed (reason : string).

Arguments HalResult_ok {T} v.
Arguments HalResult_unsupported {T}.
Arguments HalResult_failed {T} reason.

Definition isOk {T : Type} (r : HalResult T) : bool :=
  match r with
  | HalResult_ok _ => true
  | _ => false
  end.

Definition isUnsupported {T : Type} (r : HalResult T) : bool :=
  match r with
  | HalResult_unsupported => true
  | _ => false
  end.

Definition isFailed {T : Type} (r : HalResult T) : bool :=
  match r with
  | HalResult_failed _ => true
  | _ => false
  end.

Definition valueOr {T : Type} (r : HalResult T) (defaultValue : T) : T :=
  match r with
  | HalResult_ok v => v
  | _ => defaultValue
  end.

(** [value()] where the source has just tested [isOk()]: [Some] the value,
    and [None] to stand for the null array that the source keeps otherwise. *)
Definition value_if_ok {T : Type} (r : HalResult T) : option T :=
  match r with
  | HalResult_ok v => Some v
  | _ => None
  end.

(** The closure that [createCallback] returns: a [std::function<void()>]
    whose captures are [vibrationId] (by value) and [this] (the address of
    the wrapper). *)
Record Callback : Type := mkCallback {
  captured_vibrationId : Z;
  captured_this : Z
}.

(** Modelled from the spec: [vibrator::HalWrapper] is declared in
    vibratorservice; it is the "blocking call interface accepting typed
    requests ... and returning success/unsupported/error per call".  Of its
    requests, the two that the embedded entry points send. *)
Record HalWrapper : Type := mkHalWrapper {
  hal_on : Z -> Callback -> HalResult unit;
  hal_performPwleEffect : list PrimitivePwle -> Callback -> HalResult unit
}.

Definition HalFunction (R : Type) : Type := HalWrapper -> R.

(** Modelled from the spec: [vibrator::Info] is declared in
    vibratorservice; "each field is independently present or absent".  The
    fields are those that [vibratorGetInfo] reads, each a [HalResult]. *)
Module Info.
Record t : Type := mk {
  capabilities : HalResult Z;
  supportedEffects : HalResult (list Z);
  supportedBraking : HalResult (list Z);
  supportedPrimitives : HalResult (list Z);
  minFrequency : HalResult float;
  resonantFrequency : HalResult float;
  frequencyResolution : HalResult float;
  qFactor : HalResult float;
  maxAmplitudes : HalResult (list float)
}.
End Info.

(** Modelled from the spec: [vibrator::HalController] is declared in
    vibratorservice.  It offers the retrying call, which takes an operation
    on the HAL and a name and gives a [HalResult], and the info snapshot.
    The retry policy is the controller's own: here it is whatever function
    the controller carries.  The source instantiates [halCall<T>] at [void]
    for the two embedded calls. *)
Record HalController : Type := mkHalController {
  doWithRetry : HalFunction (HalResult unit) -> string -> HalResult unit;
  getInfo : Info.t
}.

(** ** Java objects built by [vibratorGetInfo]

    Arguments of the two constructors, in the order of their JNI signatures
    [(FFFF[F)V] and [(IJ[I[I[IFLandroid/os/VibratorInfo$FrequencyMapping;)V];
    an array argument is [None] when the source passes [nullptr]. *)
Record FrequencyMapping : Type := mkFrequencyMapping {
  fm_minFrequency : float;
  fm_resonantFrequency : float;
  fm_frequencyResolution : float;
  fm_suggestedSafeRange : float;
  fm_maxAmplitudes : option (list float)
}.

Record VibratorInfo : Type := mkVibratorInfo {
  vi_id : Z;
  vi_capabilities : Z;
  vi_supportedEffects : option (list Z);
  vi_supportedBraking : option (list Z);
  vi_supportedPrimitives : option (list Z);
  vi_qFactor : float;
  vi_frequencyMapping : FrequencyMapping
}.

(** ** Native state: wrappers, JNI global references, listener calls

    The [JNIEnv] that the callback and the destructor obtain from
    [GetOrAttachJNIEnvironment(sJvm)] is taken to be available: attaching
    the calling thread is the runtime's business. *)

Record VibratorControllerWrapper : Type := mkWrapper {
  mHal : HalController;
  mVibratorId : Z;
  mCallbackListener : Z
}.

(** One call of [OnVibrationCompleteListener.onComplete(int, long)]. *)
Record OnComplete : Type := mkOnComplete {
  listener : Z;
  vibratorId_arg : Z;
  vibrationId_arg : Z
}.

Record JniState : Type := mkJniState {
  (** live [VibratorControllerWrapper] objects, by address *)
  wrappers : gmap Z VibratorControllerWrapper;
  (** the JNI global reference table: reference to Java object *)
  globalRefs : gmap Z Z;
  (** the [onComplete] calls made so far, oldest first *)
  onCompleteCalls : list OnComplete
}.

Inductive Fault : Type :=
| FatalAbort        (** [LOG_ALWAYS_FATAL_IF] fired *)
| UseAfterFree      (** access through the address of a deleted wrapper *)
| DeletedGlobalRef. (** JNI call on a global reference that was deleted *)

Inductive Outcome (A : Type) : Type :=
| Done (a : A) (s : JniState)
| Crash (f : Fault).

Arguments Done {A} a s.
Arguments Crash {A} f.

Definition Native (A : Type) : Type := JniState -> Outcome A.

Definition ret {A : Type} (a : A) : Native A := fun s => Done a s.

Definition bind {A B : Type} (m : Native A) (k : A -> Native B) : Native B :=
  fun s =>
    match m s with
    | Done a s' => k a s'
    | Crash f => Crash f
    end.

Definition crash {A : Type} (f : Fault) : Native A := fun _ => Crash f.

Notation "x <- m ;; k" := (bind m (fun x => k))
  (at level 100, m at next level, right associativity).
Notation "m ;;; k" := (bind m (fun _ => k))
  (at level 100, right associativity).

(** Reading a member through a wrapper pointer. *)
Definition deref (this : Z) : Native VibratorControllerWrapper :=
  fun s =>
    match wrappers s !! this with
    | Some w => Done w s
    | None => Crash UseAfterFree
    end.

(** [new VibratorControllerWrapper]: some address that is neither null nor
    in use. *)
Definition alloc (w : VibratorControllerWrapper) : Native Z :=
  fun s =>
    let this := fresh ({[0]} ∪ dom (wrappers s)) in
    Done this (mkJniState (<[this := w]> (wrappers s)) (globalRefs s) (onCompleteCalls s)).

(** Releasing the storage of a wrapper. *)
Definition dealloc (this : Z) : Native unit :=
  fun s => Done tt (mkJniState (delete this (wrappers s)) (globalRefs s) (onCompleteCalls s)).

(** [env->NewGlobalRef(obj)]: null for a null object. *)
Definition NewGlobalRef (obj : Z) : Native Z :=
  fun s =>
    if obj =? 0 then Done 0 s
    else
      let ref := fresh ({[0]} ∪ dom (globalRefs s)) in
      Done ref (mkJniState (wrappers s) (<[ref := obj]> (globalRefs s)) (onCompleteCalls s)).

(** [env->DeleteGlobalRef(ref)] *)
Definition DeleteGlobalRef (ref : Z) : Native unit :=
  fun s =>
    match globalRefs s !! ref with
    | Some _ => Done tt (mkJniState (wrappers s) (delete ref (globalRefs s)) (onCompleteCalls s))
    | None => Crash DeletedGlobalRef
    end.

(** [env->CallVoidMethod(ref, sMethodIdOnComplete, vibratorId, vibrationId)] *)
Definition CallVoidMethod_onComplete (ref vibratorId vibrationId : Z) : Native unit :=
  fun s =>
    match globalRefs s !! ref with
    | Some obj =>
        Done tt (mkJniState (wrappers s) (globalRefs s)
                   (onCompleteCalls s ++ [mkOnComplete obj vibratorId vibrationId]))
    | None => Crash DeletedGlobalRef
    end.

Definition empty_state : JniState := mkJniState ∅ ∅ [].

(** ** The wrapper class and the JNI entry points *)

Section Controller.

(** The value of [aidl::Braking::NONE]. *)
Variable Braking_NONE : Braking.

(** The value of [vibrator::Capabilities::NONE], declared in
    vibratorservice. *)
Variable Capabilities_NONE : Z.

(** [findVibrator]: the lookup in the manager service's HAL controller;
    [None] is the null [shared_ptr]. *)
Variable findVibrator : Z -> option HalController.

(** The constructor, run on fresh storage by [std::make_unique]. *)
Definition VibratorControllerWrapper_ctor (vibratorId callbackListener : Z) : Native Z :=
  let hal := findVibrator vibratorId in
  ref <- NewGlobalRef callbackListener ;;
  match hal with
  | None => crash FatalAbort
  | Some hal =>
      if ref =? 0 then crash FatalAbort
      else alloc {| mHal := hal; mVibratorId := vibratorId; mCallbackListener := ref |}
  end.

(** The destructor body. *)
Definition VibratorControllerWrapper_dtor (this : Z) : Native unit :=
  w <- deref this ;;
  DeleteGlobalRef (mCallbackListener w).

Definition getVibratorId (this : Z) : Native Z :=
  w <- deref this ;; ret (mVibratorId w).

Definition getVibratorInfo (this : Z) : Native Info.t :=
  w <- deref this ;; ret (getInfo (mHal w)).

(** [mHal->init()] changes nothing of the native state. *)
Definition initHal (this : Z) : Native unit :=
  w <- deref this ;; ret tt.

Definition halCall (this : Z) (fn : HalFunction (HalResult unit)) (functionName : string)
    : Native (HalResult unit) :=
  w <- deref this ;; ret (doWithRetry (mHal w) fn functionName).

Definition createCallback (this : Z) (vibrationId : Z) : Callback :=
  {| captured_vibrationId := vibrationId; captured_this := this |}.

(** Calling the closure: the body of the lambda in [createCallback]. *)
Definition Callback_call (callback : Callback) : Native unit :=
  w <- deref (captured_this callback) ;;
  CallVoidMethod_onComplete (mCallbackListener w) (mVibratorId w)
    (captured_vibrationId callback).

Definition destroyNativeWrapper (ptr : Z) : Native unit :=
  let wrapper := ptr in
  if wrapper =? 0 then ret tt
  else (VibratorControllerWrapper_dtor wrapper ;;; dealloc wrapper).

Definition vibratorNativeInit (vibratorId callbackListener : Z) : Native Z :=
  wrapper <- VibratorControllerWrapper_ctor vibratorId callbackListener ;;
  initHal wrapper ;;;
  ret wrapper.

Definition vibratorOn (ptr timeoutMs vibrationId : Z) : Native Z :=
  let wrapper := ptr in
  if wrapper =? 0 then ret (-1)
  else
    let callback := createCallback wrapper vibrationId in
    let onFn : HalFunction (HalResult unit) := fun hal => hal_on hal timeoutMs callback in
    result <- halCall wrapper onFn "on" ;;
    ret (if isOk result then timeoutMs else if isUnsupported result then 0 else -1).

Definition vibratorPerformPwleEffect (ptr : Z) (waveform : list RampSegment)
    (brakingId vibrationId : Z) : Native Z :=
  let wrapper := ptr in
  if wrapper =? 0 then ret (-1)
  else
    let acc := pwle_compile Braking_NONE waveform brakingId in
    let callback := createCallback wrapper vibrationId in
    let performPwleEffectFn : HalFunction (HalResult unit) :=
      fun hal => hal_performPwleEffect hal (primitives acc) callback in
    result <- halCall wrapper performPwleEffectFn "performPwleEffect" ;;
    ret (if isOk result then totalDuration acc else if isUnsupported result then 0 else -1).

Definition vibratorGetInfo (ptr : Z) (suggestedSafeRange : float) : Native (option VibratorInfo) :=
  let wrapper := ptr in
  if wrapper =? 0 then ret None
  else
    info <- getVibratorInfo wrapper ;;
    let capabilities := valueOr (Info.capabilities info) Capabilities_NONE in
    let minFrequency := valueOr (Info.minFrequency info) Float32.NAN in
    let resonantFrequency := valueOr (Info.resonantFrequency info) Float32.NAN in
    let frequencyResolution := valueOr (Info.frequencyResolution info) Float32.NAN in
    let qFactor := valueOr (Info.qFactor info) Float32.NAN in
    let supportedEffects := value_if_ok (Info.supportedEffects info) in
    let supportedBraking := value_if_ok (Info.supportedBraking info) in
    let supportedPrimitives := value_if_ok (Info.supportedPrimitives info) in
    let maxAmplitudes := value_if_ok (Info.maxAmplitudes info) in
    let frequencyMapping :=
      mkFrequencyMapping minFrequency resonantFrequency frequencyResolution
        suggestedSafeRange maxAmplitudes in
    id <- getVibratorId wrapper ;;
    ret (Some (mkVibratorInfo id capabilities supportedEffects supportedBraking
                 supportedPrimitives qFactor frequencyMapping)).

End Controller.

(** ** Concrete collaborators used to run the entry points *)

Module Sample.
(** Sample values for the enumerators that the source leaves to the
    interface definitions; [Braking_CLICK] stands for a braking kind
    other than NONE. *)
Definition Braking_NONE : Braking := 0.
Definition Braking_CLICK : Braking := 1.
Definition Capabilities_NONE : Z := 0.

Definition hal_answering (answer : HalResult unit) : HalWrapper :=
  {| hal_on := fun _ _ => answer; hal_performPwleEffect := fun _ _ => answer |}.

Definition info_nothing_reported : Info.t :=
  Info.mk HalResult_unsupported HalResult_unsupported HalResult_unsupported
    HalResult_unsupported HalResult_unsupported HalResult_unsupported
    HalResult_unsupported HalResult_unsupported HalResult_unsupported.

(** A controller whose retrying call runs the function once on a HAL that
    gives [answer] to every request. *)
Definition controller (answer : HalResult unit) (info : Info.t) : HalController :=
  {| doWithRetry := fun fn _ => fn (hal_answering answer); getInfo := info |}.

Definition findVibrator (answer : HalResult unit) (info : Info.t) (vibratorId : Z)
    : option HalController :=
  if vibratorId =? 7 then Some (controller answer info) else None.
End Sample.

(** ** Reference functions for stating the properties *)

(** Sum of the [mDuration] fields of a waveform. *)
Fixpoint sum_durations (waveform : list RampSegment) : Z :=
  match waveform with
  | [] => 0
  | element :: rest => mDuration element + sum_durations rest
  end.

(** A well-formed [RampSegment[]] argument: an array length is a [jsize]
    and every [mDuration] is a Java [int]. *)
Definition is_waveform (waveform : list RampSegment) : bool :=
  is_jarray waveform && forallb (fun element => is_jint (mDuration element)) waveform.

(** What the loop pushes for the element at index [i], the extra braking
    of the last iteration apart. *)
Definition pushed_at (Braking_NONE braking : Braking) (i : Z) (element : RampSegment)
    : PrimitivePwle :=
  let activePwle := activePwleFromJavaPrimitive element in
  if (0 <? i) && shouldBeReplacedWithBraking Braking_NONE activePwle braking
  then PrimitivePwle_braking (brakingPwle braking (duration activePwle))
  else PrimitivePwle_active activePwle.

Fixpoint pushed_from (Braking_NONE braking : Braking) (i : Z) (elements : list RampSegment)
    : list PrimitivePwle :=
  match elements with
  | [] => []
  | element :: rest =>
      pushed_at Braking_NONE braking i element :: pushed_from Braking_NONE braking (i + 1) rest
  end.

(** The extra braking that follows the last element, if any. *)
Definition pushed_last (Braking_NONE braking : Braking) (elements : list RampSegment)
    : list PrimitivePwle :=
  match last elements with
  | Some element =>
      if shouldAddLastBraking Braking_NONE (activePwleFromJavaPrimitive element) braking
      then [PrimitivePwle_braking (brakingPwle braking 0)]
      else []
  | None => []
  end.

(** Scenario A of the specification; the frequencies are left open. *)
Definition scenario_A (f1 f2 f3 f4 : float) : list RampSegment :=
  [ mkRampSegment Float32.zero Float32.zero f1 f2 10;
    mkRampSegment Float32.half Float32.zero f3 f4 20 ].

(** The output that the specification lists for scenario A. *)
Definition scenario_A_listed (CLICK : Braking) (f3 f4 : float) : list PrimitivePwle :=
  [ PrimitivePwle_braking (mkBrakingPwle CLICK 10);
    PrimitivePwle_active (mkActivePwle Float32.half Float32.zero f3 f4 20);
    PrimitivePwle_braking (mkBrakingPwle CLICK 0) ].

(** The output that the loop builds for scenario A. *)
Definition scenario_A_built (CLICK : Braking) (f1 f2 f3 f4 : float) : list PrimitivePwle :=
  [ PrimitivePwle_active (mkActivePwle Float32.zero Float32.zero f1 f2 10);
    PrimitivePwle_active (mkActivePwle Float32.half Float32.zero f3 f4 20);
    PrimitivePwle_braking (mkBrakingPwle CLICK 0) ].

(** ** Sample inputs and states *)

Definition ramp (startAmplitude endAmplitude : float) (duration : Z) : RampSegment :=
  mkRampSegment startAmplitude endAmplitude Float32.one Float32.one duration.

(** A hold, a silent gap and a decay to rest. *)
Definition hold_gap_decay : list RampSegment :=
  [ ramp Float32.half Float32.half 10;
    ramp Float32.zero Float32.neg_zero 20;
    ramp Float32.half Float32.zero 30 ].

Definition result_of {A : Type} (o : Outcome A) : option A :=
  match o with
  | Done a _ => Some a
  | Crash _ => None
  end.

(** A field that the hardware did not report: its [HalResult] is not ok. *)
Definition unreported {T : Type} (r : HalResult T) : Prop := isOk r = false.

Module SampleRun.
Import Sample.

Definition info_capabilities_NONE : Info.t :=
  Info.mk (HalResult_ok Capabilities_NONE) HalResult_unsupported HalResult_unsupported
    HalResult_unsupported HalResult_unsupported HalResult_unsupported
    HalResult_unsupported HalResult_unsupported HalResult_unsupported.

(** Vibrator 7 with listener object 100, as [vibratorNativeInit] leaves
    it in the empty state: the wrapper at address 1 holds global
    reference 1. *)
Definition live_wrapper (answer : HalResult unit) (info : Info.t) : VibratorControllerWrapper :=
  {| mHal := controller answer info; mVibratorId := 7; mCallbackListener := 1 |}.

Definition live_state (answer : HalResult unit) (info : Info.t) : JniState :=
  {| wrappers := {[ 1 := live_wrapper answer info ]};
     globalRefs := {[ 1 := 100 ]};
     onCompleteCalls := [] |}.

(** The snapshot built when nothing is reported. *)
Definition snapshot_nothing_reported (suggestedSafeRange : float) : VibratorInfo :=
  {| vi_id := 7;
     vi_capabilities := Capabilities_NONE;
     vi_supportedEffects := None;
     vi_supportedBraking := None;
     vi_supportedPrimitives := None;
     vi_qFactor := Float32.NAN;
     vi_frequencyMapping :=
       {| fm_minFrequency := Float32.NAN;
          fm_resonantFrequency := Float32.NAN;
          fm_frequencyResolution := Float32.NAN;
          fm_suggestedSafeRange := suggestedSafeRange;
          fm_maxAmplitudes := None |} |}.
End SampleRun.

(** An array argument follows its field: null when the field is
    unreported, the reported array otherwise. *)
Definition array_or_null {T : Type} (r : HalResult (list T)) (arg : option (list T)) : Prop :=
  (unreported r -> arg = None)
  /\ (forall v : list T, r = HalResult_ok v -> arg = Some v).

(** A float argument follows its field: NaN when the field is unreported,
    the reported number otherwise. *)
Definition float_or_NAN (r : HalResult float) (arg : float) : Prop :=
  (unreported r -> arg = Float32.NAN)
  /\ (forall v : float, r = HalResult_ok v -> arg = v).

(** Well-formed native states: every live wrapper holds a live global
    reference, and no two live wrappers hold the same one. *)
Definition state_ok (st : JniState) : Prop :=
  (forall (this : Z) (w : VibratorControllerWrapper),
      wrappers st !! this = Some w -> is_Some (globalRefs st !! mCallbackListener w))
  /\ (forall (this1 this2 : Z) (w1 w2 : VibratorControllerWrapper),
         wrappers st !! this1 = Some w1 ->
         wrappers st !! this2 = Some w2 ->
         mCallbackListener w1 = mCallbackListener w2 ->
         this1 = this2).

(** The controller at [this] is live and its listener is [listenerObject]. *)
Definition live_with (st : JniState) (this : Z) (w : VibratorControllerWrapper)
    (listenerObject : Z) : Prop :=
  wrappers st !! this = Some w
  /\ globalRefs st !! mCallbackListener w = Some listenerObject.

(** What may happen to the native state while the controller at [this] is
    not destroyed: other controllers come and go, callbacks are called, and
    the entry points run. *)
Inductive step_keeping (this : Z) : JniState -> JniState -> Prop :=
| keeping_init (findVibrator : Z -> option HalController)
    (vibratorId callbackListener this' : Z) (st st' : JniState) :
    vibratorNativeInit findVibrator vibratorId callbackListener st = Done this' st' ->
    step_keeping this st st'
| keeping_destroy (ptr : Z) (st st' : JniState) :
    ptr <> this ->
    destroyNativeWrapper ptr st = Done tt st' ->
    step_keeping this st st'
| keeping_callback (callback : Callback) (st st' : JniState) :
    Callback_call callback st = Done tt st' ->
    step_keeping this st st'
| keeping_on (ptr timeoutMs vibrationId r : Z) (st st' : JniState) :
    vibratorOn ptr timeoutMs vibrationId st = Done r st' ->
    step_keeping this st st'
| keeping_pwle (Braking_NONE : Braking) (ptr : Z) (waveform : list RampSegment)
    (brakingId vibrationId r : Z) (st st' : JniState) :
    vibratorPerformPwleEffect Braking_NONE ptr waveform brakingId vibrationId st = Done r st' ->
    step_keeping this st st'
| keeping_getInfo (Capabilities_NONE ptr : Z) (suggestedSafeRange : float)
    (r : option VibratorInfo) (st st' : JniState) :
    vibratorGetInfo Capabilities_NONE ptr suggestedSafeRange st = Done r st' ->
    step_keeping this st st'.

(** ** The remaining entry points *)

(** [static_cast<int32_t>] of a [jlong]. *)
Definition int32_of_jlong (x : Z) : Z := (x + 2 ^ 31) mod 2 ^ 32 - 2 ^ 31.

(** The Java object [android.os.vibrator.PrimitiveSegment], seen through
    the three fields that [sPrimitiveClassInfo] names. *)
Record PrimitiveSegment : Type := mkPrimitiveSegment {
  mPrimitiveId : Z;
  mScale : float;
  mDelay : Z
}.

(** [aidl::CompositeEffect] *)
Record CompositeEffect : Type := mkCompositeEffect {
  primitive : Z;
  scale : float;
  delayMs : Z
}.

Definition effectFromJavaPrimitive (segment : PrimitiveSegment) : CompositeEffect :=
  {| primitive := mPrimitiveId segment;
     scale := mScale segment;
     delayMs := mDelay segment |}.

(** The loop of [vibratorPerformComposedEffect]: [elements] are the array
    elements still to be visited, [effects] the vector so far. *)
Fixpoint composed_loop (elements : list PrimitiveSegment) (effects : list CompositeEffect)
    : list CompositeEffect :=
  match elements with
  | [] => effects
  | element :: rest => composed_loop rest (effects ++ [effectFromJavaPrimitive element])
  end.

(** Modelled from the spec: [vibrator::ManagerHalController] is declared in
    vibratorservice; it resolves a vibrator id to its controller, with a
    [HalResult]. *)
Record ManagerHalController : Type := mkManagerHalController {
  getVibrator : Z -> HalResult HalController
}.

(** [findVibrator]; [manager] is what
    [android_server_vibrator_VibratorManagerService_getManager()] returns,
    [None] for the null pointer. *)
Definition findVibrator (manager : option ManagerHalController) (vibratorId : Z)
    : option HalController :=
  match manager with
  | None => None
  | Some manager =>
      let result := getVibrator manager vibratorId in
      if isOk result then value_if_ok result else None
  end.

(** What [vibratorPerformEffect] and [vibratorPerformComposedEffect] return
    for the result of their HAL call. *)
Definition count_or_sentinel (result : HalResult Z) : Z :=
  match value_if_ok result with
  | Some milliseconds => milliseconds
  | None => if isUnsupported result then 0 else -1
  end.

Section EntryPoints.

(** The requests of [vibrator::HalWrapper] that the entry points below
    send, and the retrying call at [std::chrono::milliseconds]; all are
    declared in vibratorservice. *)
Variable hal_ping : HalWrapper -> HalResult unit.
Variable hal_off : HalWrapper -> HalResult unit.
Variable hal_setAmplitude : HalWrapper -> float -> HalResult unit.
Variable hal_setExternalControl : HalWrapper -> bool -> HalResult unit.
Variable hal_performEffect : HalWrapper -> Z -> Z -> Callback -> HalResult Z.
Variable hal_performComposedEffect :
  HalWrapper -> list CompositeEffect -> Callback -> HalResult Z.
Variable hal_alwaysOnEnable : HalWrapper -> Z -> Z -> Z -> HalResult unit.
Variable hal_alwaysOnDisable : HalWrapper -> Z -> HalResult unit.
Variable doWithRetry_ms :
  HalController -> HalFunction (HalResult Z) -> string -> HalResult Z.

(** [static_cast<aidl::Effect>] and [static_cast<aidl::EffectStrength>] of
    a [jlong]; the enumerations are declared in the AIDL interface. *)
Variable Effect_of_jlong : Z -> Z.
Variable EffectStrength_of_jlong : Z -> Z.

(** [halCall<std::chrono::milliseconds>] *)
Definition halCall_ms (this : Z) (fn : HalFunction (HalResult Z)) (functionName : string)
    : Native (HalResult Z) :=
  w <- deref this ;; ret (doWithRetry_ms (mHal w) fn functionName).

Definition vibratorIsAvailable (ptr : Z) : Native bool :=
  let wrapper := ptr in
  if wrapper =? 0 then ret false
  else
    let pingFn : HalFunction (HalResult unit) := fun hal => hal_ping hal in
    result <- halCall wrapper pingFn "ping" ;;
    ret (if isOk result then true else false).

Definition vibratorOff (ptr : Z) : Native unit :=
  let wrapper := ptr in
  if wrapper =? 0 then ret tt
  else
    let offFn : HalFunction (HalResult unit) := fun hal => hal_off hal in
    halCall wrapper offFn "off" ;;;
    ret tt.

Definition vibratorSetAmplitude (ptr : Z) (amplitude : float) : Native unit :=
  let wrapper := ptr in
  if wrapper =? 0 then ret tt
  else
    let setAmplitudeFn : HalFunction (HalResult unit) :=
      fun hal => hal_setAmplitude hal amplitude in
    halCall wrapper setAmplitudeFn "setAmplitude" ;;;
    ret tt.

Definition vibratorSetExternalControl (ptr : Z) (enabled : bool) : Native unit :=
  let wrapper := ptr in
  if wrapper =? 0 then ret tt
  else
    let setExternalControlFn : HalFunction (HalResult unit) :=
      fun hal => hal_setExternalControl hal enabled in
    halCall wrapper setExternalControlFn "setExternalControl" ;;;
    ret tt.

Definition vibratorPerformEffect (ptr effect strength vibrationId : Z) : Native Z :=
  let wrapper := ptr in
  if wrapper =? 0 then ret (-1)
  else
    let effectType := Effect_of_jlong effect in
    let effectStrength := EffectStrength_of_jlong strength in
    let callback := createCallback wrapper vibrationId in
    let performEffectFn : HalFunction (HalResult Z) :=
      fun hal => hal_performEffect hal effectType effectStrength callback in
    result <- halCall_ms wrapper performEffectFn "performEffect" ;;
    ret (count_or_sentinel result).

Definition vibratorPerformComposedEffect (ptr : Z) (composition : list PrimitiveSegment)
    (vibrationId : Z) : Native Z :=
  let wrapper := ptr in
  if wrapper =? 0 then ret (-1)
  else
    let effects := composed_loop composition [] in
    let callback := createCallback wrapper vibrationId in
    let performComposedEffectFn : HalFunction (HalResult Z) :=
      fun hal => hal_performComposedEffect hal effects callback in
    result <- halCall_ms wrapper performComposedEffectFn "performComposedEffect" ;;
    ret (count_or_sentinel result).

Definition vibratorAlwaysOnEnable (ptr id effect strength : Z) : Native unit :=
  let wrapper := ptr in
  if wrapper =? 0 then ret tt
  else
    let alwaysOnEnableFn : HalFunction (HalResult unit) :=
      fun hal =>
        hal_alwaysOnEnable hal (int32_of_jlong id) (Effect_of_jlong effect)
          (EffectStrength_of_jlong strength) in
    halCall wrapper alwaysOnEnableFn "alwaysOnEnable" ;;;
    ret tt.

Definition vibratorAlwaysOnDisable (ptr id : Z) : Native unit :=
  let wrapper := ptr in
  if wrapper =? 0 then ret tt
  else
    let alwaysOnDisableFn : HalFunction (HalResult unit) :=
      fun hal => hal_alwaysOnDisable hal (int32_of_jlong id) in
    halCall wrapper alwaysOnDisableFn "alwaysOnDisable" ;;;
    ret tt.

End EntryPoints.

(** ** Further reference functions *)

(** The duration that a primitive of the compiled waveform carries. *)
Definition primitive_duration (p : PrimitivePwle) : Z :=
  match p with
  | PrimitivePwle_active pwle => duration pwle
  | PrimitivePwle_braking pwle => braking_duration pwle
  end.

Fixpoint sum_primitive_durations (ps : list PrimitivePwle) : Z :=
  match ps with
  | [] => 0
  | p :: rest => primitive_duration p + sum_primitive_durations rest
  end.

(** Calling callbacks one after the other, as the HAL thread does. *)
Fixpoint call_callbacks (callbacks : list Callback) : Native unit :=
  match callbacks with
  | [] => ret tt
  | callback :: rest => Callback_call callback ;;; call_callbacks rest
  end.

(** What the native methods may do to the native state: controllers are
    initialised and destroyed, callbacks are called. *)
Inductive native_step : JniState -> JniState -> Prop :=
| native_init (finder : Z -> option HalController)
    (vibratorId callbackListener this : Z) (st st' : JniState) :
    vibratorNativeInit finder vibratorId callbackListener st = Done this st' ->
    native_step st st'
| native_destroy (ptr : Z) (st st' : JniState) :
    destroyNativeWrapper ptr st = Done tt st' ->
    native_step st st'
| native_callback (callback : Callback) (st st' : JniState) :
    Callback_call callback st = Done tt st' ->
    native_step st st'.

(** Two results report the same thing: both not ok, or both ok with the
    same value. *)
Definition same_report {T : Type} (r1 r2 : HalResult T) : Prop :=
  value_if_ok r1 = value_if_ok r2.

Definition same_reports (info1 info2 : Info.t) : Prop :=
  same_report (Info.capabilities info1) (Info.capabilities info2)
  /\ same_report (Info.supportedEffects info1) (Info.supportedEffects info2)
  /\ same_report (Info.supportedBraking info1) (Info.supportedBraking info2)
  /\ same_report (Info.supportedPrimitives info1) (Info.supportedPrimitives info2)
  /\ same_report (Info.minFrequency info1) (Info.minFrequency info2)
  /\ same_report (Info.resonantFrequency info1) (Info.resonantFrequency info2)
  /\ same_report (Info.frequencyResolution info1) (Info.frequencyResolution info2)
  /\ same_report (Info.qFactor info1) (Info.qFactor info2)
  /\ same_report (Info.maxAmplitudes info1) (Info.maxAmplitudes info2).

(** ** Further sample collaborators *)

Module Sample2.
Definition manager (answer : HalResult unit) (info : Info.t) : ManagerHalController :=
  {| getVibrator := fun vibratorId =>
       if vibratorId =? 7 then HalResult_ok (Sample.controller answer info)
       else HalResult_failed "no such vibrator" |}.

Definition ping (answer : HalResult unit) : HalWrapper -> HalResult unit :=
  fun _ => answer.

Definition performEffect (answer : HalResult Z) : HalWrapper -> Z -> Z -> Callback -> HalResult Z :=
  fun _ _ _ _ => answer.

Definition performComposedEffect (answer : HalResult Z)
    : HalWrapper -> list CompositeEffect -> Callback -> HalResult Z :=
  fun _ _ _ => answer.

(** A retrying call at milliseconds that runs the function once. *)
Definition doWithRetry_ms : HalController -> HalFunction (HalResult Z) -> string -> HalResult Z :=
  fun _ fn _ => fn (Sample.hal_answering (HalResult_ok tt)).

Definition alwaysOnDisable : HalWrapper -> Z -> HalResult unit :=
  fun _ id => if id =? 3 then HalResult_ok tt else HalResult_unsupported.

Definition alwaysOnEnable : HalWrapper -> Z -> Z -> Z -> HalResult unit :=
  fun _ id _ _ => if id =? 3 then HalResult_ok tt else HalResult_unsupported.

(** Two controllers of vibrator 7, with listener objects 100 and 200. *)
Definition two_controllers : JniState :=
  {| wrappers :=
       {[ 1 := SampleRun.live_wrapper (HalResult_ok tt) Sample.info_nothing_reported;
          2 := {| mHal := Sample.controller (HalResult_ok tt) Sample.info_nothing_reported;
                  mVibratorId := 7; mCallbackListener := 2 |} ]};
     globalRefs := {[ 1 := 100; 2 := 200 ]};
     onCompleteCalls := [] |}.

Definition info_failed : Info.t :=
  Info.mk (HalResult_failed "x") (HalResult_failed "x") (HalResult_failed "x")
    (HalResult_failed "x") (HalResult_failed "x") (HalResult_failed "x")
    (HalResult_failed "x") (HalResult_failed "x") (HalResult_failed "x").

Definition click_tick : list PrimitiveSegment :=
  [ mkPrimitiveSegment 1 Float32.one 0; mkPrimitiveSegment 7 Float32.half 50 ].

(** A HAL whose reported duration tells which effects it was sent, and in
    which order: every effect adds its primitive id, its delay and a mark
    of its scale to the digits of the answer. *)
Definition composed_digits (effects : list CompositeEffect) : Z :=
  fold_left
    (fun digits effect =>
       digits * 100000 + primitive effect * 1000 + delayMs effect
       + (if Float32.eqb (scale effect) Float32.half then 7 else 0))
    effects 0.

Definition performComposedEffect_digits
    : HalWrapper -> list CompositeEffect -> Callback -> HalResult Z :=
  fun _ effects _ => HalResult_ok (composed_digits effects).
End Sample2.

(** * Properties *)

(** ** Integers and floats *)

Lemma int64_add_exact (a b : Z) :
  - 2 ^ 63 <= a + b < 2 ^ 63 -> int64_add a b = a + b.
Proof.
  intros Hrange. unfold int64_add.
  rewrite Z.mod_small by lia. lia.
Qed.

Lemma size_t_sub_exact (a b : Z) :
  0 <= a - b < 2 ^ 64 -> size_t_sub a b = a - b.
Proof.
  intros Hrange. unfold size_t_sub. apply Z.mod_small. exact Hrange.
Qed.

Lemma is_jint_range (x : Z) :
  is_jint x = true -> - 2 ^ 31 <= x < 2 ^ 31.
Proof.
  unfold is_jint, jint_min, jint_max. intros H.
  apply andb_prop in H as [Hlo Hhi].
  apply Z.leb_le in Hlo. apply Z.leb_le in Hhi. lia.
Qed.

Lemma is_jarray_length {A : Type} (a : list A) :
  is_jarray a = true -> Z.of_nat (length a) < 2 ^ 31.
Proof.
  unfold is_jarray, jint_max. intros H. apply Z.leb_le in H. lia.
Qed.

Lemma sample_floats_valid :
  Float32.valid Float32.zero = true /\ Float32.valid Float32.neg_zero = true
  /\ Float32.valid Float32.half = true /\ Float32.valid Float32.one = true
  /\ Float32.valid Float32.NAN = true.
Proof. vm_compute. repeat split. Qed.

(** The source's [x == 0] holds exactly for the two zeros. *)
Lemma eqb_zero_iff (x : float) :
  Float32.eqb x Float32.zero = true <-> exists s, x = S754_zero s.
Proof.
  split.
  - destruct x as [s | s | | s m e]; cbn; try discriminate.
    + intros _. exists s. reflexivity.
    + destruct s; discriminate.
    + destruct s; discriminate.
  - intros [s ->]. reflexivity.
Qed.

(** The source's [x > 0] fails on zeros, NaN and everything negative. *)
Lemma gtb_zero_iff (x : float) :
  Float32.gtb x Float32.zero = true <->
  x = S754_infinity false \/ exists m e, x = S754_finite false m e.
Proof.
  split.
  - destruct x as [s | s | | s m e]; cbn; try discriminate.
    + destruct s; [discriminate | auto].
    + destruct s; [discriminate | eauto].
  - intros [-> | (m & e & ->)]; reflexivity.
Qed.

(** ** The PWLE loop *)

Section PwleFacts.

Variable Braking_NONE : Braking.

Lemma shouldBeReplacedWithBraking_NONE (activePwle : ActivePwle) :
  shouldBeReplacedWithBraking Braking_NONE activePwle Braking_NONE = false.
Proof.
  unfold shouldBeReplacedWithBraking. rewrite Z.eqb_refl. reflexivity.
Qed.

Lemma shouldAddLastBraking_NONE (activePwle : ActivePwle) :
  shouldAddLastBraking Braking_NONE activePwle Braking_NONE = false.
Proof.
  unfold shouldAddLastBraking. rewrite Z.eqb_refl. reflexivity.
Qed.

Lemma pushed_from_length (braking : Braking) (elements : list RampSegment) :
  forall i, length (pushed_from Braking_NONE braking i elements) = length elements.
Proof.
  induction elements as [| element rest IH]; intros i; simpl.
  - reflexivity.
  - rewrite IH. reflexivity.
Qed.

Lemma pushed_from_lookup (braking : Braking) (elements : list RampSegment) :
  forall (i : Z) (k : nat) (element : RampSegment),
    elements !! k = Some element ->
    pushed_from Braking_NONE braking i elements !! k
    = Some (pushed_at Braking_NONE braking (i + Z.of_nat k) element).
Proof.
  induction elements as [| first rest IH]; intros i k element Hk.
  - discriminate.
  - destruct k as [| k].
    + simpl in Hk. injection Hk as ->. simpl. rewrite Z.add_0_r. reflexivity.
    + simpl in Hk. cbn [pushed_from]. rewrite lookup_cons.
      rewrite (IH (i + 1) k element Hk).
      do 2 f_equal. lia.
Qed.

(** The vector after the loop: what was there, one primitive per element,
    and the extra braking of the last iteration. *)
Lemma pwle_loop_primitives (braking : Braking) (size : Z) (elements : list RampSegment) :
  forall (i : Z) (acc : PwleAcc),
    0 <= i ->
    size = i + Z.of_nat (length elements) ->
    size < 2 ^ 64 ->
    primitives (pwle_loop Braking_NONE braking size i elements acc)
    = primitives acc ++ pushed_from Braking_NONE braking i elements
        ++ pushed_last Braking_NONE braking elements.
Proof.
  induction elements as [| element rest IH]; intros i acc Hi Hsize Hmax.
  - simpl. rewrite app_nil_r. reflexivity.
  - cbn [pwle_loop pushed_from].
    assert (Hsub : size_t_sub size 1 = size - 1).
    { apply size_t_sub_exact. cbn [length] in Hsize. lia. }
    destruct rest as [| next rest'].
    + cbn [pwle_loop]. unfold pwle_loop_body, pushed_last, pushed_at.
      cbn [last primitives pushed_from]. rewrite Hsub.
      replace (i =? size - 1) with true
        by (symmetry; apply Z.eqb_eq; cbn [length] in Hsize; lia).
      cbn [andb].
      destruct (shouldAddLastBraking _ _ _);
        destruct ((0 <? i) && shouldBeReplacedWithBraking _ _ _);
        cbn [app]; rewrite <- ?app_assoc; reflexivity.
    + rewrite IH; [| lia | cbn [length] in *; lia | exact Hmax].
      unfold pwle_loop_body at 1. cbn [primitives]. rewrite Hsub.
      replace (i =? size - 1) with false
        by (symmetry; apply Z.eqb_neq; cbn [length] in Hsize; lia).
      cbn [andb].
      change (pushed_last Braking_NONE braking (element :: next :: rest'))
        with (pushed_last Braking_NONE braking (next :: rest')).
      unfold pushed_at.
      destruct ((0 <? i) && shouldBeReplacedWithBraking _ _ _);
        rewrite <- app_assoc; reflexivity.
Qed.

Lemma pwle_compile_primitives (waveform : list RampSegment) (brakingId : Z) :
  is_jarray waveform = true ->
  primitives (pwle_compile Braking_NONE waveform brakingId)
  = pushed_from Braking_NONE brakingId 0 waveform
      ++ pushed_last Braking_NONE brakingId waveform.
Proof.
  intros Harray. apply is_jarray_length in Harray.
  unfold pwle_compile.
  rewrite pwle_loop_primitives; [reflexivity | lia | lia | lia].
Qed.

(** [totalDuration] after the loop, as long as the 64-bit count cannot
    overflow. *)
Lemma pwle_loop_totalDuration (braking : Braking) (size : Z) (elements : list RampSegment) :
  forall (i : Z) (acc : PwleAcc),
    forallb (fun element => is_jint (mDuration element)) elements = true ->
    Z.abs (totalDuration acc) + Z.of_nat (length elements) * 2 ^ 31 < 2 ^ 63 ->
    totalDuration (pwle_loop Braking_NONE braking size i elements acc)
    = totalDuration acc + sum_durations elements.
Proof.
  induction elements as [| element rest IH]; intros i acc Hints Hroom.
  - simpl. lia.
  - cbn [forallb] in Hints. apply andb_prop in Hints as [Hint Hints].
    apply is_jint_range in Hint.
    cbn [length] in Hroom. cbn [pwle_loop sum_durations].
    assert (Hadd : int64_add (totalDuration acc) (mDuration element)
                   = totalDuration acc + mDuration element)
      by (apply int64_add_exact; lia).
    rewrite IH.
    + unfold pwle_loop_body. cbn [totalDuration duration activePwleFromJavaPrimitive].
      rewrite Hadd. lia.
    + exact Hints.
    + unfold pwle_loop_body. cbn [totalDuration duration activePwleFromJavaPrimitive].
      rewrite Hadd. lia.
Qed.

(** With braking NONE every iteration pushes the active PWLE. *)
Lemma pwle_loop_NONE (size : Z) (elements : list RampSegment) :
  forall (i : Z) (acc : PwleAcc),
    primitives (pwle_loop Braking_NONE Braking_NONE size i elements acc)
    = primitives acc
        ++ map (fun element => PrimitivePwle_active (activePwleFromJavaPrimitive element))
             elements.
Proof.
  induction elements as [| element rest IH]; intros i acc.
  - simpl. rewrite app_nil_r. reflexivity.
  - cbn [pwle_loop map]. rewrite IH. unfold pwle_loop_body.
    rewrite shouldBeReplacedWithBraking_NONE, shouldAddLastBraking_NONE.
    rewrite !andb_false_r. cbn [primitives].
    rewrite <- app_assoc. reflexivity.
Qed.

End PwleFacts.

(** ** Envelope compilation: the claims *)

(** C1, as the code has it: compiling the two-segment envelope
    [{0, 0, _, _, 10}, {0.5, 0, _, _, 20}] with a braking kind CLICK other
    than NONE yields [ActivePwle(0, 0, .., 10), ActivePwle(0.5, 0, .., 20),
    BrakingPwle(CLICK, 0)] and a total duration of 30: the first segment is
    at index 0 and is therefore not replaced by a braking. *)
Theorem scenario_A_compiled (Braking_NONE CLICK : Braking) (f1 f2 f3 f4 : float) :
  CLICK <> Braking_NONE ->
  pwle_compile Braking_NONE (scenario_A f1 f2 f3 f4) CLICK
  = {| primitives := scenario_A_built CLICK f1 f2 f3 f4; totalDuration := 30 |}.
Proof.
  intros Hkind. apply Z.eqb_neq in Hkind.
  unfold pwle_compile, scenario_A, scenario_A_built.
  cbn [pwle_loop length]. unfold pwle_loop_body.
  unfold shouldBeReplacedWithBraking, shouldAddLastBraking.
  cbn [activePwleFromJavaPrimitive startAmplitude endAmplitude duration
       mStartAmplitude mEndAmplitude mStartFrequency mEndFrequency mDuration
       primitives totalDuration].
  rewrite Hkind. reflexivity.
Qed.

Lemma scenario_A_compiled_witness :
  Sample.Braking_CLICK <> Sample.Braking_NONE /\
  pwle_compile Sample.Braking_NONE
    (scenario_A Float32.one Float32.one Float32.one Float32.one) Sample.Braking_CLICK
  = {| primitives :=
         scenario_A_built Sample.Braking_CLICK Float32.one Float32.one Float32.one Float32.one;
       totalDuration := 30 |}.
Proof.
  split; [discriminate | apply scenario_A_compiled; discriminate].
Defined.

(** C1, as the claim lists it, fails: the output of scenario A does not
    start with [BrakingPwle(CLICK, 10)]. *)
Lemma scenario_A_not_as_listed :
  primitives
    (pwle_compile Sample.Braking_NONE
       (scenario_A Float32.one Float32.one Float32.one Float32.one) Sample.Braking_CLICK)
  <> scenario_A_listed Sample.Braking_CLICK Float32.one Float32.one.
Proof.
  vm_compute. discriminate.
Qed.

(** C3: for a waveform that is a Java array of ramp segments, whatever the
    braking kind, the total duration that the loop accumulates is the sum
    of the segments' durations, replaced or not; it is 0 for the empty
    waveform. *)
Theorem pwle_compile_totalDuration (Braking_NONE : Braking)
    (waveform : list RampSegment) (brakingId : Z) :
  is_waveform waveform = true ->
  totalDuration (pwle_compile Braking_NONE waveform brakingId) = sum_durations waveform
  /\ totalDuration (pwle_compile Braking_NONE [] brakingId) = 0.
Proof.
  intros Hwf. split; [| reflexivity].
  unfold is_waveform in Hwf. apply andb_prop in Hwf as [Harray Hints].
  apply is_jarray_length in Harray.
  unfold pwle_compile.
  rewrite pwle_loop_totalDuration; cbn [totalDuration]; [lia | exact Hints | lia].
Qed.

Lemma pwle_compile_totalDuration_witness :
  is_waveform hold_gap_decay = true /\
  totalDuration (pwle_compile Sample.Braking_NONE hold_gap_decay Sample.Braking_CLICK)
  = sum_durations hold_gap_decay
  /\ totalDuration (pwle_compile Sample.Braking_NONE [] Sample.Braking_CLICK) = 0.
Proof.
  split; [reflexivity | apply pwle_compile_totalDuration; reflexivity].
Defined.

(** C4: at an index [i > 0], with a braking kind other than NONE, a segment
    whose start and end amplitudes both compare equal to zero is replaced:
    position [i] of the output is a braking PWLE of the configured kind and
    of the segment's duration, whatever the other segments are. *)
Theorem pwle_compile_replaced_with_braking (Braking_NONE : Braking)
    (waveform : list RampSegment) (brakingId : Z) (i : nat) (element : RampSegment) :
  is_jarray waveform = true ->
  waveform !! i = Some element ->
  (0 < i)%nat ->
  brakingId <> Braking_NONE ->
  Float32.eqb (mStartAmplitude element) Float32.zero = true ->
  Float32.eqb (mEndAmplitude element) Float32.zero = true ->
  primitives (pwle_compile Braking_NONE waveform brakingId) !! i
  = Some (PrimitivePwle_braking
            {| braking_kind := brakingId; braking_duration := mDuration element |}).
Proof.
  intros Harray Hi Hpos Hkind Hstart Hend.
  rewrite pwle_compile_primitives by exact Harray.
  rewrite lookup_app_l
    by (rewrite pushed_from_length; apply lookup_lt_Some in Hi; exact Hi).
  rewrite (pushed_from_lookup _ _ _ _ _ _ Hi).
  unfold pushed_at, shouldBeReplacedWithBraking.
  cbn [activePwleFromJavaPrimitive startAmplitude endAmplitude duration].
  rewrite Hstart, Hend.
  apply Z.eqb_neq in Hkind. rewrite Hkind.
  replace (0 <? 0 + Z.of_nat i) with true by (symmetry; apply Z.ltb_lt; lia).
  reflexivity.
Qed.

Lemma pwle_compile_replaced_with_braking_witness :
  primitives (pwle_compile Sample.Braking_NONE hold_gap_decay Sample.Braking_CLICK) !! 1%nat
  = Some (PrimitivePwle_braking
            {| braking_kind := Sample.Braking_CLICK; braking_duration := 20 |}).
Proof.
  apply (pwle_compile_replaced_with_braking Sample.Braking_NONE hold_gap_decay
           Sample.Braking_CLICK 1 (ramp Float32.zero Float32.neg_zero 20));
    [reflexivity | reflexivity | lia | discriminate | reflexivity | reflexivity].
Defined.

(** C5: for a waveform whose last segment has a start amplitude greater
    than zero and an end amplitude equal to zero, with a braking kind other
    than NONE, the output is one primitive per segment followed by one
    braking PWLE of duration 0: one element more than the input, the extra
    one in last position. *)
Theorem pwle_compile_last_braking (Braking_NONE : Braking)
    (waveform : list RampSegment) (brakingId : Z) (lastElement : RampSegment) :
  is_jarray waveform = true ->
  last waveform = Some lastElement ->
  brakingId <> Braking_NONE ->
  Float32.gtb (mStartAmplitude lastElement) Float32.zero = true ->
  Float32.eqb (mEndAmplitude lastElement) Float32.zero = true ->
  primitives (pwle_compile Braking_NONE waveform brakingId)
  = pushed_from Braking_NONE brakingId 0 waveform
      ++ [PrimitivePwle_braking {| braking_kind := brakingId; braking_duration := 0 |}]
  /\ length (primitives (pwle_compile Braking_NONE waveform brakingId))
     = S (length waveform)
  /\ last (primitives (pwle_compile Braking_NONE waveform brakingId))
     = Some (PrimitivePwle_braking {| braking_kind := brakingId; braking_duration := 0 |}).
Proof.
  intros Harray Hlast Hkind Hstart Hend.
  assert (Hout : primitives (pwle_compile Braking_NONE waveform brakingId)
                 = pushed_from Braking_NONE brakingId 0 waveform
                     ++ [PrimitivePwle_braking (brakingPwle brakingId 0)]).
  { rewrite pwle_compile_primitives by exact Harray.
    unfold pushed_last, shouldAddLastBraking. rewrite Hlast.
    cbn [activePwleFromJavaPrimitive startAmplitude endAmplitude].
    rewrite Hstart, Hend.
    apply Z.eqb_neq in Hkind. rewrite Hkind. reflexivity. }
  rewrite Hout. unfold brakingPwle. split; [reflexivity | split].
  - rewrite length_app, pushed_from_length. cbn [length]. lia.
  - apply last_snoc.
Qed.

Lemma pwle_compile_last_braking_witness :
  length (primitives (pwle_compile Sample.Braking_NONE hold_gap_decay Sample.Braking_CLICK))
  = 4%nat
  /\ last (primitives (pwle_compile Sample.Braking_NONE hold_gap_decay Sample.Braking_CLICK))
     = Some (PrimitivePwle_braking
               {| braking_kind := Sample.Braking_CLICK; braking_duration := 0 |}).
Proof.
  apply (pwle_compile_last_braking Sample.Braking_NONE hold_gap_decay
           Sample.Braking_CLICK (ramp Float32.half Float32.zero 30));
    [reflexivity | reflexivity | discriminate | reflexivity | reflexivity].
Defined.

(** C6: with braking kind NONE a non-empty waveform passes through
    unchanged: the output is the input's segments in order, each as an
    active PWLE that carries the segment's own start and end amplitude,
    start and end frequency and duration; its length is the input's, and
    it holds no braking PWLE. *)
Theorem pwle_compile_NONE (Braking_NONE : Braking) (waveform : list RampSegment) :
  waveform <> [] ->
  primitives (pwle_compile Braking_NONE waveform Braking_NONE)
  = map (fun element =>
           PrimitivePwle_active
             {| startAmplitude := mStartAmplitude element;
                endAmplitude := mEndAmplitude element;
                startFrequency := mStartFrequency element;
                endFrequency := mEndFrequency element;
                duration := mDuration element |})
      waveform
  /\ length (primitives (pwle_compile Braking_NONE waveform Braking_NONE)) = length waveform
  /\ existsb is_braking (primitives (pwle_compile Braking_NONE waveform Braking_NONE)) = false.
Proof.
  intros _.
  assert (Hout : primitives (pwle_compile Braking_NONE waveform Braking_NONE)
                 = map (fun element =>
                          PrimitivePwle_active
              {| startAmplitude := mStartAmplitude element;
                 endAmplitude := mEndAmplitude element;
                 startFrequency := mStartFrequency element;
                 endFrequency := mEndFrequency element;
                 duration := mDuration element |})
                     waveform).
  { unfold pwle_compile. rewrite pwle_loop_NONE. reflexivity. }
  rewrite Hout. split; [reflexivity | split].
  - apply length_map.
  - clear Hout. induction waveform as [| element rest IH]; [reflexivity | exact IH].
Qed.

Lemma pwle_compile_NONE_witness :
  hold_gap_decay <> [] /\
  primitives (pwle_compile Sample.Braking_NONE hold_gap_decay Sample.Braking_NONE)
  = [ PrimitivePwle_active
        (mkActivePwle Float32.half Float32.half Float32.one Float32.one 10);
      PrimitivePwle_active
        (mkActivePwle Float32.zero Float32.neg_zero Float32.one Float32.one 20);
      PrimitivePwle_active
        (mkActivePwle Float32.half Float32.zero Float32.one Float32.one 30) ].
Proof.
  split; [discriminate |].
  apply (pwle_compile_NONE Sample.Braking_NONE hold_gap_decay). discriminate.
Defined.

(** ** Entry points on a live wrapper *)

Lemma deref_live (st : JniState) (this : Z) (w : VibratorControllerWrapper) :
  wrappers st !! this = Some w -> deref this st = Done w st.
Proof. intros Hlive. unfold deref. rewrite Hlive. reflexivity. Qed.

Lemma deref_freed (st : JniState) (this : Z) :
  wrappers st !! this = None -> deref this st = Crash UseAfterFree.
Proof. intros Hfreed. unfold deref. rewrite Hfreed. reflexivity. Qed.

Lemma halCall_live (st : JniState) (this : Z) (w : VibratorControllerWrapper)
    (fn : HalFunction (HalResult unit)) (functionName : string) :
  wrappers st !! this = Some w ->
  halCall this fn functionName st = Done (doWithRetry (mHal w) fn functionName) st.
Proof.
  intros Hlive. unfold halCall, bind. rewrite (deref_live _ _ _ Hlive). reflexivity.
Qed.

Lemma sample_init (answer : HalResult unit) (info : Info.t) :
  vibratorNativeInit (Sample.findVibrator answer info) 7 100 empty_state
  = Done 1 (SampleRun.live_state answer info).
Proof. vm_compute. reflexivity. Qed.

(** C8: on a live wrapper [vibratorOn] returns the [timeoutMs] it was
    given when the HAL call is ok, 0 when it is unsupported and -1 when it
    failed. *)
Theorem vibratorOn_result (st : JniState) (ptr : Z) (w : VibratorControllerWrapper)
    (timeoutMs vibrationId : Z) (result : HalResult unit) :
  ptr <> 0 ->
  wrappers st !! ptr = Some w ->
  doWithRetry (mHal w)
    (fun hal => hal_on hal timeoutMs (createCallback ptr vibrationId)) "on" = result ->
  (isOk result = true -> vibratorOn ptr timeoutMs vibrationId st = Done timeoutMs st)
  /\ (isUnsupported result = true -> vibratorOn ptr timeoutMs vibrationId st = Done 0 st)
  /\ (isFailed result = true -> vibratorOn ptr timeoutMs vibrationId st = Done (-1) st).
Proof.
  intros Hptr Hlive Hcall. apply Z.eqb_neq in Hptr.
  unfold vibratorOn. rewrite Hptr. unfold bind.
  rewrite (halCall_live _ _ _ _ _ Hlive), Hcall.
  destruct result; cbn; repeat split; intros; reflexivity || discriminate.
Qed.

Lemma vibratorOn_result_witness :
  vibratorOn 1 250 42
    (SampleRun.live_state (HalResult_ok tt) Sample.info_nothing_reported)
  = Done 250 (SampleRun.live_state (HalResult_ok tt) Sample.info_nothing_reported)
  /\ vibratorOn 1 250 42
       (SampleRun.live_state HalResult_unsupported Sample.info_nothing_reported)
     = Done 0 (SampleRun.live_state HalResult_unsupported Sample.info_nothing_reported)
  /\ vibratorOn 1 250 42
       (SampleRun.live_state (HalResult_failed "dead") Sample.info_nothing_reported)
     = Done (-1) (SampleRun.live_state (HalResult_failed "dead") Sample.info_nothing_reported).
Proof.
  split; [| split].
  - apply (vibratorOn_result _ 1
             (SampleRun.live_wrapper (HalResult_ok tt) Sample.info_nothing_reported)
             250 42 (HalResult_ok tt));
      [discriminate | reflexivity | reflexivity | reflexivity].
  - apply (vibratorOn_result _ 1
             (SampleRun.live_wrapper HalResult_unsupported Sample.info_nothing_reported)
             250 42 HalResult_unsupported);
      [discriminate | reflexivity | reflexivity | reflexivity].
  - apply (vibratorOn_result _ 1
             (SampleRun.live_wrapper (HalResult_failed "dead") Sample.info_nothing_reported)
             250 42 (HalResult_failed "dead"));
      [discriminate | reflexivity | reflexivity | reflexivity].
Defined.

(** C7: on a live wrapper [vibratorPerformPwleEffect] returns the total
    duration that its own loop accumulated over the submitted waveform when
    the HAL call is ok (the HAL call carries no duration), 0 when it is
    unsupported and -1 when it failed. *)
Theorem vibratorPerformPwleEffect_result (Braking_NONE : Braking) (st : JniState) (ptr : Z)
    (w : VibratorControllerWrapper) (waveform : list RampSegment)
    (brakingId vibrationId : Z) (result : HalResult unit) :
  ptr <> 0 ->
  wrappers st !! ptr = Some w ->
  doWithRetry (mHal w)
    (fun hal =>
       hal_performPwleEffect hal
         (primitives (pwle_compile Braking_NONE waveform brakingId))
         (createCallback ptr vibrationId))
    "performPwleEffect" = result ->
  (isOk result = true ->
   vibratorPerformPwleEffect Braking_NONE ptr waveform brakingId vibrationId st
   = Done (totalDuration (pwle_compile Braking_NONE waveform brakingId)) st)
  /\ (isUnsupported result = true ->
      vibratorPerformPwleEffect Braking_NONE ptr waveform brakingId vibrationId st = Done 0 st)
  /\ (isFailed result = true ->
      vibratorPerformPwleEffect Braking_NONE ptr waveform brakingId vibrationId st
      = Done (-1) st).
Proof.
  intros Hptr Hlive Hcall. apply Z.eqb_neq in Hptr.
  unfold vibratorPerformPwleEffect. rewrite Hptr. unfold bind.
  rewrite (halCall_live _ _ _ _ _ Hlive), Hcall.
  destruct result; cbn; repeat split; intros; reflexivity || discriminate.
Qed.

Lemma vibratorPerformPwleEffect_result_witness :
  vibratorPerformPwleEffect Sample.Braking_NONE 1 hold_gap_decay Sample.Braking_CLICK 42
    (SampleRun.live_state (HalResult_ok tt) Sample.info_nothing_reported)
  = Done 60 (SampleRun.live_state (HalResult_ok tt) Sample.info_nothing_reported)
  /\ vibratorPerformPwleEffect Sample.Braking_NONE 1 hold_gap_decay Sample.Braking_CLICK 42
       (SampleRun.live_state HalResult_unsupported Sample.info_nothing_reported)
     = Done 0 (SampleRun.live_state HalResult_unsupported Sample.info_nothing_reported)
  /\ vibratorPerformPwleEffect Sample.Braking_NONE 1 hold_gap_decay Sample.Braking_CLICK 42
       (SampleRun.live_state (HalResult_failed "dead") Sample.info_nothing_reported)
     = Done (-1) (SampleRun.live_state (HalResult_failed "dead") Sample.info_nothing_reported).
Proof.
  split; [| split].
  - apply (vibratorPerformPwleEffect_result Sample.Braking_NONE _ 1
             (SampleRun.live_wrapper (HalResult_ok tt) Sample.info_nothing_reported)
             hold_gap_decay Sample.Braking_CLICK 42 (HalResult_ok tt));
      [discriminate | reflexivity | reflexivity | reflexivity].
  - apply (vibratorPerformPwleEffect_result Sample.Braking_NONE _ 1
             (SampleRun.live_wrapper HalResult_unsupported Sample.info_nothing_reported)
             hold_gap_decay Sample.Braking_CLICK 42 HalResult_unsupported);
      [discriminate | reflexivity | reflexivity | reflexivity].
  - apply (vibratorPerformPwleEffect_result Sample.Braking_NONE _ 1
             (SampleRun.live_wrapper (HalResult_failed "dead") Sample.info_nothing_reported)
             hold_gap_decay Sample.Braking_CLICK 42 (HalResult_failed "dead"));
      [discriminate | reflexivity | reflexivity | reflexivity].
Defined.

(** ** The completion callback *)

(** What [vibratorNativeInit] leaves behind: a wrapper at a non-null
    address that carries the vibrator id it was given and a global
    reference to the listener it was given. *)
Lemma vibratorNativeInit_live (findVibrator : Z -> option HalController)
    (hal : HalController) (vibratorId callbackListener : Z) (st : JniState) :
  findVibrator vibratorId = Some hal ->
  callbackListener <> 0 ->
  exists (this ref : Z) (st' : JniState),
    vibratorNativeInit findVibrator vibratorId callbackListener st = Done this st'
    /\ this <> 0
    /\ wrappers st' !! this
       = Some {| mHal := hal; mVibratorId := vibratorId; mCallbackListener := ref |}
    /\ globalRefs st' !! ref = Some callbackListener
    /\ onCompleteCalls st' = onCompleteCalls st.
Proof.
  intros Hfound Hlistener. apply Z.eqb_neq in Hlistener.
  set (ref := fresh ({[0]} ∪ dom (globalRefs st))).
  set (this := fresh ({[0]} ∪ dom (wrappers st))).
  assert (Href : ref <> 0).
  { intros Heq. apply (is_fresh ({[0]} ∪ dom (globalRefs st))).
    fold ref. rewrite Heq. set_solver. }
  assert (Hthis : this <> 0).
  { intros Heq. apply (is_fresh ({[0]} ∪ dom (wrappers st))).
    fold this. rewrite Heq. set_solver. }
  exists this, ref.
  eexists. split; [| split; [exact Hthis | ]].
  - unfold vibratorNativeInit, VibratorControllerWrapper_ctor, bind, NewGlobalRef.
    rewrite Hfound, Hlistener. fold ref.
    apply Z.eqb_neq in Href. rewrite Href.
    unfold alloc, initHal, bind, deref. cbn [wrappers]. fold this.
    rewrite lookup_insert_eq. reflexivity.
  - cbn [wrappers globalRefs onCompleteCalls].
    rewrite !lookup_insert_eq. auto.
Qed.

(** [vibratorNativeInit], when it returns, has added one wrapper at a
    fresh address and one global reference under a fresh name. *)
Lemma vibratorNativeInit_inv (findVibrator : Z -> option HalController)
    (vibratorId callbackListener this : Z) (st st' : JniState) :
  vibratorNativeInit findVibrator vibratorId callbackListener st = Done this st' ->
  exists (hal : HalController) (ref : Z),
    findVibrator vibratorId = Some hal
    /\ wrappers st !! this = None
    /\ globalRefs st !! ref = None
    /\ st' = {| wrappers :=
                  <[this := {| mHal := hal; mVibratorId := vibratorId;
                               mCallbackListener := ref |}]> (wrappers st);
                globalRefs := <[ref := callbackListener]> (globalRefs st);
                onCompleteCalls := onCompleteCalls st |}.
Proof.
  unfold vibratorNativeInit, VibratorControllerWrapper_ctor, bind, NewGlobalRef.
  destruct (callbackListener =? 0) eqn:Hlistener.
  - destruct (findVibrator vibratorId); cbn; discriminate.
  - destruct (findVibrator vibratorId) as [hal |] eqn:Hfound; [| discriminate].
    set (ref := fresh ({[0]} ∪ dom (globalRefs st))).
    destruct (ref =? 0) eqn:Href; [discriminate |].
    unfold alloc, initHal, bind, deref. cbn [wrappers globalRefs onCompleteCalls].
    set (addr := fresh ({[0]} ∪ dom (wrappers st))).
    rewrite lookup_insert_eq. unfold ret.
    intros Hdone. injection Hdone as <- <-.
    exists hal, ref. repeat split.
    + apply not_elem_of_dom. intros Hin.
      apply (is_fresh ({[0]} ∪ dom (wrappers st))). fold addr. set_solver.
    + apply not_elem_of_dom. intros Hin.
      apply (is_fresh ({[0]} ∪ dom (globalRefs st))). fold ref. set_solver.
Qed.

(** [destroyNativeWrapper], when it returns for a non-null pointer, has
    removed the wrapper and the global reference it held. *)
Lemma destroyNativeWrapper_inv (ptr : Z) (st st' : JniState) :
  ptr <> 0 ->
  destroyNativeWrapper ptr st = Done tt st' ->
  exists w : VibratorControllerWrapper,
    wrappers st !! ptr = Some w
    /\ st' = {| wrappers := delete ptr (wrappers st);
                globalRefs := delete (mCallbackListener w) (globalRefs st);
                onCompleteCalls := onCompleteCalls st |}.
Proof.
  intros Hptr. apply Z.eqb_neq in Hptr.
  unfold destroyNativeWrapper. rewrite Hptr.
  unfold VibratorControllerWrapper_dtor, bind, deref.
  destruct (wrappers st !! ptr) as [w |] eqn:Hlive; [| discriminate].
  unfold DeleteGlobalRef.
  destruct (globalRefs st !! mCallbackListener w); [| discriminate].
  unfold dealloc. cbn [wrappers globalRefs onCompleteCalls].
  intros Hdone. injection Hdone as <-.
  exists w. split; reflexivity.
Qed.

Lemma state_ok_empty : state_ok empty_state.
Proof.
  split.
  - intros this w Hlive. cbn in Hlive. rewrite lookup_empty in Hlive. discriminate.
  - intros this1 this2 w1 w2 Hlive. cbn in Hlive. rewrite lookup_empty in Hlive.
    discriminate.
Qed.

Lemma vibratorNativeInit_ok (findVibrator : Z -> option HalController)
    (vibratorId callbackListener this : Z) (st st' : JniState) :
  state_ok st ->
  vibratorNativeInit findVibrator vibratorId callbackListener st = Done this st' ->
  state_ok st'.
Proof.
  intros [Hrefs Hdistinct] Hinit.
  apply vibratorNativeInit_inv in Hinit as (hal & ref & _ & Hfresh & Hnew & ->).
  split; cbn [wrappers globalRefs].
  - intros this1 w1 Hlive.
    destruct (decide (this = this1)) as [<- | Hother].
    + rewrite lookup_insert_eq in Hlive. injection Hlive as <-.
      cbn [mCallbackListener]. rewrite lookup_insert_eq. eauto.
    + rewrite lookup_insert_ne in Hlive by exact Hother.
      destruct (Hrefs _ _ Hlive) as [obj Hobj].
      rewrite lookup_insert_ne by congruence. eauto.
  - intros this1 this2 w1 w2 Hlive1 Hlive2 Hsame.
    destruct (decide (this = this1)) as [<- | Hother1];
      destruct (decide (this = this2)) as [<- | Hother2]; try reflexivity.
    + rewrite lookup_insert_eq in Hlive1. injection Hlive1 as <-.
      rewrite lookup_insert_ne in Hlive2 by exact Hother2.
      destruct (Hrefs _ _ Hlive2) as [obj Hobj].
      cbn [mCallbackListener] in Hsame. congruence.
    + rewrite lookup_insert_eq in Hlive2. injection Hlive2 as <-.
      rewrite lookup_insert_ne in Hlive1 by exact Hother1.
      destruct (Hrefs _ _ Hlive1) as [obj Hobj].
      cbn [mCallbackListener] in Hsame. congruence.
    + rewrite lookup_insert_ne in Hlive1 by exact Hother1.
      rewrite lookup_insert_ne in Hlive2 by exact Hother2.
      eapply Hdistinct; eassumption.
Qed.

Lemma destroyNativeWrapper_ok (ptr : Z) (st st' : JniState) :
  state_ok st ->
  destroyNativeWrapper ptr st = Done tt st' ->
  state_ok st'.
Proof.
  intros [Hrefs Hdistinct] Hdestroy.
  destruct (decide (ptr = 0)) as [-> | Hptr].
  { cbn in Hdestroy. injection Hdestroy as <-. split; assumption. }
  apply (destroyNativeWrapper_inv _ _ _ Hptr) in Hdestroy as (w & Hw & ->).
  split; cbn [wrappers globalRefs].
  - intros this1 w1 Hlive.
    apply lookup_delete_Some in Hlive as [Hother Hlive].
    rewrite lookup_delete_ne.
    + eapply Hrefs; eassumption.
    + intros Hsame. apply Hother. eapply Hdistinct; eassumption.
  - intros this1 this2 w1 w2 Hlive1 Hlive2.
    apply lookup_delete_Some in Hlive1 as [_ Hlive1].
    apply lookup_delete_Some in Hlive2 as [_ Hlive2].
    eapply Hdistinct; eassumption.
Qed.

(** A live controller stays live, with the same listener, when another
    controller is initialised or destroyed. *)
Lemma vibratorNativeInit_keeps (findVibrator : Z -> option HalController)
    (vibratorId callbackListener this' : Z) (st st' : JniState)
    (this : Z) (w : VibratorControllerWrapper) (listenerObject : Z) :
  live_with st this w listenerObject ->
  vibratorNativeInit findVibrator vibratorId callbackListener st = Done this' st' ->
  live_with st' this w listenerObject.
Proof.
  intros [Hlive Hlistener] Hinit.
  apply vibratorNativeInit_inv in Hinit as (hal & ref & _ & Hfresh & Hnew & ->).
  split; cbn [wrappers globalRefs].
  - rewrite lookup_insert_ne by congruence. exact Hlive.
  - rewrite lookup_insert_ne by congruence. exact Hlistener.
Qed.

Lemma destroyNativeWrapper_keeps (ptr : Z) (st st' : JniState)
    (this : Z) (w : VibratorControllerWrapper) (listenerObject : Z) :
  state_ok st ->
  live_with st this w listenerObject ->
  this <> ptr ->
  destroyNativeWrapper ptr st = Done tt st' ->
  live_with st' this w listenerObject.
Proof.
  intros [_ Hdistinct] [Hlive Hlistener] Hother Hdestroy.
  destruct (decide (ptr = 0)) as [-> | Hptr].
  { cbn in Hdestroy. injection Hdestroy as <-. split; assumption. }
  apply (destroyNativeWrapper_inv _ _ _ Hptr) in Hdestroy as (w' & Hw' & ->).
  split; cbn [wrappers globalRefs].
  - rewrite lookup_delete_ne by congruence. exact Hlive.
  - rewrite lookup_delete_ne; [exact Hlistener |].
    intros Hsame. apply Hother. symmetry. eapply Hdistinct; eassumption.
Qed.

(** A call of a callback changes the listener calls only. *)
Lemma Callback_call_keeps (callback : Callback) (st st' : JniState) :
  Callback_call callback st = Done tt st' ->
  wrappers st' = wrappers st /\ globalRefs st' = globalRefs st.
Proof.
  unfold Callback_call, bind, deref.
  destruct (wrappers st !! captured_this callback) as [w |]; [| discriminate].
  unfold CallVoidMethod_onComplete.
  destruct (globalRefs st !! mCallbackListener w); [| discriminate].
  intros Hdone. injection Hdone as <-. split; reflexivity.
Qed.

(** The entry points leave the native state as it is. *)
Lemma halCall_state (this : Z) (fn : HalFunction (HalResult unit)) (functionName : string)
    (r : HalResult unit) (st st' : JniState) :
  halCall this fn functionName st = Done r st' -> st' = st.
Proof.
  unfold halCall, bind, deref.
  destruct (wrappers st !! this); [| discriminate].
  unfold ret. intros Hdone. injection Hdone as _ <-. reflexivity.
Qed.

Lemma vibratorOn_state (ptr timeoutMs vibrationId r : Z) (st st' : JniState) :
  vibratorOn ptr timeoutMs vibrationId st = Done r st' -> st' = st.
Proof.
  unfold vibratorOn. destruct (ptr =? 0).
  - unfold ret. intros Hdone. injection Hdone as _ <-. reflexivity.
  - unfold bind.
    destruct (halCall ptr _ "on" st) as [result st1 |] eqn:Hcall; [| discriminate].
    apply halCall_state in Hcall as ->.
    unfold ret. intros Hdone. injection Hdone as _ <-. reflexivity.
Qed.

Lemma vibratorPerformPwleEffect_state (Braking_NONE : Braking) (ptr : Z)
    (waveform : list RampSegment) (brakingId vibrationId r : Z) (st st' : JniState) :
  vibratorPerformPwleEffect Braking_NONE ptr waveform brakingId vibrationId st = Done r st' ->
  st' = st.
Proof.
  unfold vibratorPerformPwleEffect. destruct (ptr =? 0).
  - unfold ret. intros Hdone. injection Hdone as _ <-. reflexivity.
  - unfold bind.
    destruct (halCall ptr _ "performPwleEffect" st) as [result st1 |] eqn:Hcall;
      [| discriminate].
    apply halCall_state in Hcall as ->.
    unfold ret. intros Hdone. injection Hdone as _ <-. reflexivity.
Qed.

Lemma vibratorGetInfo_state (Capabilities_NONE ptr : Z) (suggestedSafeRange : float)
    (r : option VibratorInfo) (st st' : JniState) :
  vibratorGetInfo Capabilities_NONE ptr suggestedSafeRange st = Done r st' -> st' = st.
Proof.
  unfold vibratorGetInfo. destruct (ptr =? 0).
  - unfold ret. intros Hdone. injection Hdone as _ <-. reflexivity.
  - unfold bind, getVibratorInfo, getVibratorId, bind, deref.
    destruct (wrappers st !! ptr) as [w |] eqn:Hlive; [| discriminate].
    cbn [ret]. rewrite Hlive.
    unfold ret. intros Hdone. injection Hdone as _ <-. reflexivity.
Qed.

(** While the controller at [this] is not destroyed it stays as it was
    constructed, and the state stays well formed. *)
Lemma step_keeping_live (this : Z) (w : VibratorControllerWrapper) (listenerObject : Z)
    (st st' : JniState) :
  step_keeping this st st' ->
  state_ok st /\ live_with st this w listenerObject ->
  state_ok st' /\ live_with st' this w listenerObject.
Proof.
  intros Hstep [Hok Hlive].
  destruct Hstep as
    [ findVibrator vibratorId callbackListener this' st st' Hinit
    | ptr st st' Hother Hdestroy
    | callback st st' Hcall
    | ptr timeoutMs vibrationId r st st' Hon
    | Braking_NONE ptr waveform brakingId vibrationId r st st' Hpwle
    | Capabilities_NONE ptr suggestedSafeRange r st st' Hinfo ].
  - split.
    + eapply vibratorNativeInit_ok; eassumption.
    + eapply vibratorNativeInit_keeps; eassumption.
  - split.
    + eapply destroyNativeWrapper_ok; eassumption.
    + eapply destroyNativeWrapper_keeps; eauto.
  - apply Callback_call_keeps in Hcall as [Hwrappers Hrefs].
    unfold state_ok, live_with. rewrite Hwrappers, Hrefs. split; assumption.
  - apply vibratorOn_state in Hon as ->. split; assumption.
  - apply vibratorPerformPwleEffect_state in Hpwle as ->. split; assumption.
  - apply vibratorGetInfo_state in Hinfo as ->. split; assumption.
Qed.

Lemma rtc_step_keeping_live (this : Z) (w : VibratorControllerWrapper) (listenerObject : Z)
    (st st' : JniState) :
  rtc (step_keeping this) st st' ->
  state_ok st /\ live_with st this w listenerObject ->
  state_ok st' /\ live_with st' this w listenerObject.
Proof.
  induction 1 as [st | st st1 st' Hstep _ IH]; intros Hinv.
  - exact Hinv.
  - apply IH. eapply step_keeping_live; eassumption.
Qed.

(** X26: From construction to call: a controller initialised for vibrator
    [vibratorId] with listener [callbackListener], and not destroyed since,
    delivers [(vibratorId, vibrationId)] to that listener when the callback
    it created for [vibrationId] is called. *)
Lemma callback_of_initialised_controller (findVibrator : Z -> option HalController)
    (vibratorId callbackListener this vibrationId : Z) (st0 st1 st2 : JniState) :
  state_ok st0 ->
  vibratorNativeInit findVibrator vibratorId callbackListener st0 = Done this st1 ->
  rtc (step_keeping this) st1 st2 ->
  Callback_call (createCallback this vibrationId) st2
  = Done tt
      {| wrappers := wrappers st2;
         globalRefs := globalRefs st2;
         onCompleteCalls :=
           onCompleteCalls st2
             ++ [ {| listener := callbackListener;
                     vibratorId_arg := vibratorId;
                     vibrationId_arg := vibrationId |} ] |}.
Proof.
  intros Hok Hinit Hrun.
  assert (Hok1 : state_ok st1) by (eapply vibratorNativeInit_ok; eassumption).
  apply vibratorNativeInit_inv in Hinit as (hal & ref & _ & _ & _ & Hst1).
  set (w := {| mHal := hal; mVibratorId := vibratorId; mCallbackListener := ref |}).
  assert (Hlive1 : live_with st1 this w callbackListener).
  { rewrite Hst1. split; cbn [wrappers globalRefs]; fold w.
    - apply lookup_insert_eq.
    - cbn [mCallbackListener w]. apply lookup_insert_eq. }
  destruct (rtc_step_keeping_live this w callbackListener st1 st2 Hrun (conj Hok1 Hlive1))
    as [_ [Hlive Hlistener]].
  unfold Callback_call, createCallback, bind, deref.
  cbn [captured_this captured_vibrationId]. rewrite Hlive.
  unfold CallVoidMethod_onComplete. rewrite Hlistener. reflexivity.
Qed.

(** C9: the callback that a live controller creates for a request
    delivers, when it is called, exactly one [onComplete] to the
    controller's listener, with the controller's own vibrator id and the
    vibration id that [createCallback] was given; nothing else changes. *)
Theorem callback_delivers (st : JniState) (this : Z) (w : VibratorControllerWrapper)
    (listenerObject vibrationId : Z) :
  wrappers st !! this = Some w ->
  globalRefs st !! mCallbackListener w = Some listenerObject ->
  Callback_call (createCallback this vibrationId) st
  = Done tt
      {| wrappers := wrappers st;
         globalRefs := globalRefs st;
         onCompleteCalls :=
           onCompleteCalls st
             ++ [ {| listener := listenerObject;
                     vibratorId_arg := mVibratorId w;
                     vibrationId_arg := vibrationId |} ] |}.
Proof.
  intros Hlive Hlistener.
  unfold Callback_call, createCallback, bind. cbn [captured_this captured_vibrationId].
  rewrite (deref_live _ _ _ Hlive).
  unfold CallVoidMethod_onComplete. rewrite Hlistener. reflexivity.
Qed.

Lemma callback_delivers_witness :
  Callback_call (createCallback 1 42)
    (SampleRun.live_state (HalResult_ok tt) Sample.info_nothing_reported)
  = Done tt
      {| wrappers := {[ 1 := SampleRun.live_wrapper (HalResult_ok tt) Sample.info_nothing_reported ]};
         globalRefs := {[ 1 := 100 ]};
         onCompleteCalls :=
           [ {| listener := 100; vibratorId_arg := 7; vibrationId_arg := 42 |} ] |}.
Proof.
  apply (callback_delivers
           (SampleRun.live_state (HalResult_ok tt) Sample.info_nothing_reported) 1
           (SampleRun.live_wrapper (HalResult_ok tt) Sample.info_nothing_reported) 100 42);
    reflexivity.
Defined.

(** C10, as the code has it: the callback holds the bare address of its
    controller and checks nothing before it uses it.  Called in the state
    that the destructor leaves, with the listener's global reference
    deleted and the storage not yet released, it calls the listener through
    the deleted reference.  Called in the state that [destroyNativeWrapper]
    leaves, and in any state in which the controller's address holds no
    wrapper, it reads released storage.  None of these calls is a clean
    drop: they are faults. *)
Theorem callback_after_teardown (st : JniState) (this : Z) (w : VibratorControllerWrapper)
    (listenerObject vibrationId : Z) :
  this <> 0 ->
  wrappers st !! this = Some w ->
  globalRefs st !! mCallbackListener w = Some listenerObject ->
  (exists st1 : JniState,
      VibratorControllerWrapper_dtor this st = Done tt st1
      /\ Callback_call (createCallback this vibrationId) st1 = Crash DeletedGlobalRef)
  /\ (exists st2 : JniState,
         destroyNativeWrapper this st = Done tt st2
         /\ wrappers st2 !! this = None
         /\ Callback_call (createCallback this vibrationId) st2 = Crash UseAfterFree)
  /\ (forall st3 : JniState,
         wrappers st3 !! this = None ->
         Callback_call (createCallback this vibrationId) st3 = Crash UseAfterFree).
Proof.
  intros Hptr Hlive Hlistener. apply Z.eqb_neq in Hptr.
  assert (Hdtor : VibratorControllerWrapper_dtor this st
                  = Done tt {| wrappers := wrappers st;
                               globalRefs := delete (mCallbackListener w) (globalRefs st);
                               onCompleteCalls := onCompleteCalls st |}).
  { unfold VibratorControllerWrapper_dtor, bind. rewrite (deref_live _ _ _ Hlive).
    unfold DeleteGlobalRef. rewrite Hlistener. reflexivity. }
  assert (Hfreed : forall st3 : JniState,
             wrappers st3 !! this = None ->
             Callback_call (createCallback this vibrationId) st3 = Crash UseAfterFree).
  { intros st3 Hnone. unfold Callback_call, createCallback, bind.
    cbn [captured_this]. rewrite (deref_freed _ _ Hnone). reflexivity. }
  split; [| split].
  - eexists. split; [exact Hdtor |].
    unfold Callback_call, createCallback, bind, deref.
    cbn [captured_this captured_vibrationId wrappers]. rewrite Hlive.
    unfold CallVoidMethod_onComplete. cbn [globalRefs].
    rewrite lookup_delete_eq. reflexivity.
  - eexists. split; [| split].
    + unfold destroyNativeWrapper. rewrite Hptr. unfold bind. rewrite Hdtor.
      unfold dealloc. cbn [wrappers globalRefs onCompleteCalls]. reflexivity.
    + cbn [wrappers]. apply lookup_delete_eq.
    + apply Hfreed. cbn [wrappers]. apply lookup_delete_eq.
  - exact Hfreed.
Qed.

Lemma callback_after_teardown_witness :
  (exists st1 : JniState,
      VibratorControllerWrapper_dtor 1
        (SampleRun.live_state (HalResult_ok tt) Sample.info_nothing_reported) = Done tt st1
      /\ Callback_call (createCallback 1 42) st1 = Crash DeletedGlobalRef)
  /\ (exists st2 : JniState,
         destroyNativeWrapper 1
           (SampleRun.live_state (HalResult_ok tt) Sample.info_nothing_reported) = Done tt st2
         /\ wrappers st2 !! 1 = None
         /\ Callback_call (createCallback 1 42) st2 = Crash UseAfterFree)
  /\ (forall st3 : JniState,
         wrappers st3 !! 1 = None ->
         Callback_call (createCallback 1 42) st3 = Crash UseAfterFree).
Proof.
  apply (callback_after_teardown
           (SampleRun.live_state (HalResult_ok tt) Sample.info_nothing_reported) 1
           (SampleRun.live_wrapper (HalResult_ok tt) Sample.info_nothing_reported) 100 42);
    [discriminate | reflexivity | reflexivity].
Defined.

(** C10, as the claim states it, fails: initialise vibrator 7, create the
    callback of request 42, destroy the wrapper, call the callback.  The
    call is not dropped; it reads the destroyed wrapper. *)
Lemma callback_after_destroy_crashes :
  (wrapper <- vibratorNativeInit
                (Sample.findVibrator (HalResult_ok tt) Sample.info_nothing_reported) 7 100 ;;
   let callback := createCallback wrapper 42 in
   destroyNativeWrapper wrapper ;;;
   Callback_call callback) empty_state
  = Crash UseAfterFree.
Proof. vm_compute. reflexivity. Qed.

(** ** The info snapshot *)

Lemma array_or_null_value_if_ok {T : Type} (r : HalResult (list T)) :
  array_or_null r (value_if_ok r).
Proof.
  unfold array_or_null, unreported.
  destruct r; cbn; split; intros; congruence.
Qed.

Lemma float_or_NAN_valueOr (r : HalResult float) :
  float_or_NAN r (valueOr r Float32.NAN).
Proof.
  unfold float_or_NAN, unreported.
  destruct r; cbn; split; intros; congruence.
Qed.

(** C2, as the code has it: in the snapshot that [vibratorGetInfo] builds
    for a live wrapper, an array field that the hardware did not report
    (supported effects, braking, primitives, max amplitudes) is null, which
    no reported array is; a float field that the hardware did not report
    (min frequency, resonant frequency, frequency resolution, Q factor) is
    NaN; unreported capabilities are [Capabilities::NONE]. *)
Theorem vibratorGetInfo_unreported (Capabilities_NONE : Z) (st : JniState) (ptr : Z)
    (w : VibratorControllerWrapper) (suggestedSafeRange : float) :
  ptr <> 0 ->
  wrappers st !! ptr = Some w ->
  exists out : VibratorInfo,
    vibratorGetInfo Capabilities_NONE ptr suggestedSafeRange st = Done (Some out) st
    /\ array_or_null (Info.supportedEffects (getInfo (mHal w))) (vi_supportedEffects out)
    /\ array_or_null (Info.supportedBraking (getInfo (mHal w))) (vi_supportedBraking out)
    /\ array_or_null (Info.supportedPrimitives (getInfo (mHal w))) (vi_supportedPrimitives out)
    /\ array_or_null (Info.maxAmplitudes (getInfo (mHal w)))
         (fm_maxAmplitudes (vi_frequencyMapping out))
    /\ float_or_NAN (Info.minFrequency (getInfo (mHal w)))
         (fm_minFrequency (vi_frequencyMapping out))
    /\ float_or_NAN (Info.resonantFrequency (getInfo (mHal w)))
         (fm_resonantFrequency (vi_frequencyMapping out))
    /\ float_or_NAN (Info.frequencyResolution (getInfo (mHal w)))
         (fm_frequencyResolution (vi_frequencyMapping out))
    /\ float_or_NAN (Info.qFactor (getInfo (mHal w))) (vi_qFactor out)
    /\ (unreported (Info.capabilities (getInfo (mHal w))) ->
        vi_capabilities out = Capabilities_NONE)
    /\ (forall v : Z, Info.capabilities (getInfo (mHal w)) = HalResult_ok v ->
        vi_capabilities out = v).
Proof.
  intros Hptr Hlive. apply Z.eqb_neq in Hptr.
  eexists. split.
  - unfold vibratorGetInfo. rewrite Hptr.
    unfold bind, getVibratorInfo, getVibratorId, bind.
    rewrite (deref_live _ _ _ Hlive). cbn [ret].
    rewrite (deref_live _ _ _ Hlive). reflexivity.
  - cbn [vi_supportedEffects vi_supportedBraking vi_supportedPrimitives vi_qFactor
         vi_capabilities vi_frequencyMapping fm_maxAmplitudes fm_minFrequency
         fm_resonantFrequency fm_frequencyResolution].
    repeat split;
      try apply array_or_null_value_if_ok;
      try apply float_or_NAN_valueOr.
    + unfold unreported. destruct (Info.capabilities (getInfo (mHal w))); cbn;
        intros; congruence.
    + intros v Hv. rewrite Hv. reflexivity.
Qed.

Lemma vibratorGetInfo_unreported_witness :
  exists out : VibratorInfo,
    vibratorGetInfo Sample.Capabilities_NONE 1 Float32.one
      (SampleRun.live_state (HalResult_ok tt) Sample.info_nothing_reported)
    = Done (Some out) (SampleRun.live_state (HalResult_ok tt) Sample.info_nothing_reported)
    /\ array_or_null (T := Z) HalResult_unsupported (vi_supportedEffects out)
    /\ array_or_null (T := Z) HalResult_unsupported (vi_supportedBraking out)
    /\ array_or_null (T := Z) HalResult_unsupported (vi_supportedPrimitives out)
    /\ array_or_null (T := float) HalResult_unsupported
         (fm_maxAmplitudes (vi_frequencyMapping out))
    /\ float_or_NAN HalResult_unsupported (fm_minFrequency (vi_frequencyMapping out))
    /\ float_or_NAN HalResult_unsupported (fm_resonantFrequency (vi_frequencyMapping out))
    /\ float_or_NAN HalResult_unsupported (fm_frequencyResolution (vi_frequencyMapping out))
    /\ float_or_NAN HalResult_unsupported (vi_qFactor out)
    /\ (unreported (T := Z) HalResult_unsupported ->
        vi_capabilities out = Sample.Capabilities_NONE)
    /\ (forall v : Z, HalResult_unsupported = HalResult_ok v -> vi_capabilities out = v).
Proof.
  apply (vibratorGetInfo_unreported Sample.Capabilities_NONE
           (SampleRun.live_state (HalResult_ok tt) Sample.info_nothing_reported) 1
           (SampleRun.live_wrapper (HalResult_ok tt) Sample.info_nothing_reported)
           Float32.one);
    [discriminate | reflexivity].
Defined.

(** C2, as the claim states it, fails: with nothing reported, the snapshot
    carries NaN for the four float fields and [Capabilities::NONE] for the
    capabilities, and it is the very snapshot of a vibrator that reports
    its capabilities to be [Capabilities::NONE]. *)
Lemma vibratorGetInfo_unreported_is_default :
  result_of
    (vibratorGetInfo Sample.Capabilities_NONE 1 Float32.one
       (SampleRun.live_state (HalResult_ok tt) Sample.info_nothing_reported))
  = Some (Some (SampleRun.snapshot_nothing_reported Float32.one))
  /\ result_of
       (vibratorGetInfo Sample.Capabilities_NONE 1 Float32.one
          (SampleRun.live_state (HalResult_ok tt) SampleRun.info_capabilities_NONE))
     = Some (Some (SampleRun.snapshot_nothing_reported Float32.one))
  /\ Float32.is_nan
       (fm_minFrequency (vi_frequencyMapping (SampleRun.snapshot_nothing_reported Float32.one)))
     = true.
Proof. vm_compute. repeat split. Qed.

(** * Further properties of the code *)

(** ** The braking predicates *)

Lemma shouldBeReplacedWithBraking_not_NONE (Braking_NONE : Braking)
    (activePwle : ActivePwle) (braking : Braking) :
  shouldBeReplacedWithBraking Braking_NONE activePwle braking = true ->
  braking <> Braking_NONE.
Proof.
  unfold shouldBeReplacedWithBraking. intros H.
  apply andb_prop in H as [H _]. apply andb_prop in H as [H _].
  apply negb_true_iff, Z.eqb_neq in H. exact H.
Qed.

Lemma shouldAddLastBraking_not_NONE (Braking_NONE : Braking)
    (activePwle : ActivePwle) (braking : Braking) :
  shouldAddLastBraking Braking_NONE activePwle braking = true ->
  braking <> Braking_NONE.
Proof.
  unfold shouldAddLastBraking. intros H.
  apply andb_prop in H as [H _]. apply andb_prop in H as [H _].
  apply negb_true_iff, Z.eqb_neq in H. exact H.
Qed.

(** X1: [shouldBeReplacedWithBraking] holds exactly when the braking is not
    NONE and both amplitudes are a zero of either sign; a NaN amplitude
    never qualifies. *)
Theorem shouldBeReplacedWithBraking_iff (Braking_NONE : Braking)
    (activePwle : ActivePwle) (braking : Braking) :
  shouldBeReplacedWithBraking Braking_NONE activePwle braking = true
  <-> braking <> Braking_NONE
      /\ (exists s, startAmplitude activePwle = S754_zero s)
      /\ (exists s, endAmplitude activePwle = S754_zero s).
Proof.
  unfold shouldBeReplacedWithBraking.
  rewrite !andb_true_iff, negb_true_iff, Z.eqb_neq, !eqb_zero_iff.
  tauto.
Qed.

(** X2: [shouldAddLastBraking] holds exactly when the braking is not NONE, the
    start amplitude is a positive number or plus infinity, and the end
    amplitude is a zero of either sign; zero, negative and NaN start
    amplitudes never qualify. *)
Theorem shouldAddLastBraking_iff (Braking_NONE : Braking)
    (lastActivePwle : ActivePwle) (braking : Braking) :
  shouldAddLastBraking Braking_NONE lastActivePwle braking = true
  <-> braking <> Braking_NONE
      /\ (startAmplitude lastActivePwle = S754_infinity false
          \/ exists m e, startAmplitude lastActivePwle = S754_finite false m e)
      /\ (exists s, endAmplitude lastActivePwle = S754_zero s).
Proof.
  unfold shouldAddLastBraking.
  rewrite !andb_true_iff, negb_true_iff, Z.eqb_neq, gtb_zero_iff, eqb_zero_iff.
  tauto.
Qed.

Lemma braking_predicates_disjoint (Braking_NONE : Braking)
    (activePwle : ActivePwle) (braking : Braking) :
  shouldBeReplacedWithBraking Braking_NONE activePwle braking
  && shouldAddLastBraking Braking_NONE activePwle braking = false.
Proof.
  unfold shouldBeReplacedWithBraking, shouldAddLastBraking.
  destruct (startAmplitude activePwle) as [s | s | | s m e];
    try destruct s; cbn; rewrite ?andb_false_r; reflexivity.
Qed.

(** ** The PWLE loop, further *)

Lemma sum_primitive_durations_app (ps qs : list PrimitivePwle) :
  sum_primitive_durations (ps ++ qs)
  = sum_primitive_durations ps + sum_primitive_durations qs.
Proof.
  induction ps as [| p ps IH]; cbn [app sum_primitive_durations]; [reflexivity | lia].
Qed.

Lemma pushed_at_duration (Braking_NONE braking : Braking) (i : Z) (element : RampSegment) :
  primitive_duration (pushed_at Braking_NONE braking i element) = mDuration element.
Proof.
  unfold pushed_at. destruct (_ && _); reflexivity.
Qed.

Lemma pushed_from_durations (Braking_NONE braking : Braking) (elements : list RampSegment) :
  forall i : Z,
    sum_primitive_durations (pushed_from Braking_NONE braking i elements)
    = sum_durations elements.
Proof.
  induction elements as [| element rest IH]; intros i;
    cbn [pushed_from sum_primitive_durations sum_durations].
  - reflexivity.
  - rewrite pushed_at_duration, IH. reflexivity.
Qed.

Lemma pushed_last_durations (Braking_NONE braking : Braking) (elements : list RampSegment) :
  sum_primitive_durations (pushed_last Braking_NONE braking elements) = 0.
Proof.
  unfold pushed_last. destruct (last elements) as [element |]; [| reflexivity].
  destruct (shouldAddLastBraking _ _ _); reflexivity.
Qed.

Lemma pushed_last_length (Braking_NONE braking : Braking) (elements : list RampSegment) :
  (length (pushed_last Braking_NONE braking elements) <= 1)%nat.
Proof.
  unfold pushed_last. destruct (last elements) as [element |]; [| cbn; lia].
  destruct (shouldAddLastBraking _ _ _); cbn; lia.
Qed.

(** X3: A segment is kept as an active PWLE at its own position, with its
    own start and end amplitude, start and end frequency and duration,
    whenever it is the first of the waveform or its amplitudes and the
    braking kind do not make it a segment to replace. *)
Theorem pwle_compile_keeps_segment (Braking_NONE : Braking)
    (waveform : list RampSegment) (brakingId : Z) (i : nat) (element : RampSegment) :
  is_jarray waveform = true ->
  waveform !! i = Some element ->
  i = 0%nat
  \/ negb (brakingId =? Braking_NONE)
     && Float32.eqb (mStartAmplitude element) Float32.zero
     && Float32.eqb (mEndAmplitude element) Float32.zero = false ->
  primitives (pwle_compile Braking_NONE waveform brakingId) !! i
  = Some (PrimitivePwle_active
            {| startAmplitude := mStartAmplitude element;
               endAmplitude := mEndAmplitude element;
               startFrequency := mStartFrequency element;
               endFrequency := mEndFrequency element;
               duration := mDuration element |}).
Proof.
  intros Harray Hi Hkept.
  rewrite pwle_compile_primitives by exact Harray.
  rewrite lookup_app_l
    by (rewrite pushed_from_length; apply lookup_lt_Some in Hi; exact Hi).
  rewrite (pushed_from_lookup _ _ _ _ _ _ Hi).
  unfold pushed_at, shouldBeReplacedWithBraking.
  cbn [activePwleFromJavaPrimitive startAmplitude endAmplitude].
  destruct Hkept as [-> | ->].
  - reflexivity.
  - rewrite andb_false_r. reflexivity.
Qed.

Lemma pwle_compile_keeps_segment_witness :
  primitives (pwle_compile Sample.Braking_NONE
                [ ramp Float32.zero Float32.zero 10; ramp Float32.NAN Float32.zero 20 ]
                Sample.Braking_CLICK) !! 0%nat
  = Some (PrimitivePwle_active
            (mkActivePwle Float32.zero Float32.zero Float32.one Float32.one 10))
  /\ primitives (pwle_compile Sample.Braking_NONE
                   [ ramp Float32.zero Float32.zero 10; ramp Float32.NAN Float32.zero 20 ]
                   Sample.Braking_CLICK) !! 1%nat
     = Some (PrimitivePwle_active
               (mkActivePwle Float32.NAN Float32.zero Float32.one Float32.one 20)).
Proof.
  split.
  - apply (pwle_compile_keeps_segment Sample.Braking_NONE _ Sample.Braking_CLICK 0
             (ramp Float32.zero Float32.zero 10));
      [reflexivity | reflexivity | left; reflexivity].
  - apply (pwle_compile_keeps_segment Sample.Braking_NONE _ Sample.Braking_CLICK 1
             (ramp Float32.NAN Float32.zero 20));
      [reflexivity | reflexivity | right; reflexivity].
Defined.

(** X4: The output has one primitive per segment, and one more exactly when
    the waveform has a last segment of which [shouldAddLastBraking] holds;
    the empty waveform gives the empty output. *)
Theorem pwle_compile_length (Braking_NONE : Braking)
    (waveform : list RampSegment) (brakingId : Z) :
  is_jarray waveform = true ->
  (length waveform <= length (primitives (pwle_compile Braking_NONE waveform brakingId))
   <= S (length waveform))%nat
  /\ (length (primitives (pwle_compile Braking_NONE waveform brakingId))
      = S (length waveform)
      <-> exists element,
            last waveform = Some element
            /\ shouldAddLastBraking Braking_NONE (activePwleFromJavaPrimitive element)
                 brakingId = true).
Proof.
  intros Harray.
  rewrite pwle_compile_primitives by exact Harray.
  rewrite length_app, pushed_from_length.
  pose proof (pushed_last_length Braking_NONE brakingId waveform) as Hle.
  split; [lia |].
  unfold pushed_last in *.
  destruct (last waveform) as [element |].
  - destruct (shouldAddLastBraking _ _ _) eqn:Hadd; cbn [length].
    + split; [eauto | lia].
    + split; [lia |]. intros (e & He & Htrue). congruence.
  - cbn [length]. split; [lia |]. intros (e & He & _). discriminate.
Qed.

Lemma pwle_compile_length_witness :
  (length hold_gap_decay
   <= length (primitives (pwle_compile Sample.Braking_NONE hold_gap_decay Sample.Braking_CLICK))
   <= S (length hold_gap_decay))%nat.
Proof.
  apply (pwle_compile_length Sample.Braking_NONE hold_gap_decay Sample.Braking_CLICK).
  reflexivity.
Defined.

(** X5: The durations carried by the output primitives add up to the sum of
    the segments' durations: a replacing braking keeps its segment's
    duration and the extra braking has none. *)
Theorem pwle_compile_durations_conserved (Braking_NONE : Braking)
    (waveform : list RampSegment) (brakingId : Z) :
  is_jarray waveform = true ->
  sum_primitive_durations (primitives (pwle_compile Braking_NONE waveform brakingId))
  = sum_durations waveform.
Proof.
  intros Harray.
  rewrite pwle_compile_primitives by exact Harray.
  rewrite sum_primitive_durations_app, pushed_from_durations, pushed_last_durations.
  lia.
Qed.

Lemma pwle_compile_durations_conserved_witness :
  sum_primitive_durations
    (primitives (pwle_compile Sample.Braking_NONE hold_gap_decay Sample.Braking_CLICK))
  = sum_durations hold_gap_decay.
Proof.
  apply pwle_compile_durations_conserved. reflexivity.
Defined.

Lemma pwle_loop_braking_kind (Braking_NONE braking : Braking) (size : Z)
    (elements : list RampSegment) :
  forall (i : Z) (acc : PwleAcc),
    Forall (fun p => forall bp, p = PrimitivePwle_braking bp ->
                                braking_kind bp = braking /\ braking <> Braking_NONE)
      (primitives acc) ->
    Forall (fun p => forall bp, p = PrimitivePwle_braking bp ->
                                braking_kind bp = braking /\ braking <> Braking_NONE)
      (primitives (pwle_loop Braking_NONE braking size i elements acc)).
Proof.
  induction elements as [| element rest IH]; intros i acc Hacc.
  - exact Hacc.
  - cbn [pwle_loop]. apply IH. unfold pwle_loop_body. cbn [primitives].
    assert (Hpushed :
      Forall (fun p => forall bp, p = PrimitivePwle_braking bp ->
                                  braking_kind bp = braking /\ braking <> Braking_NONE)
        (if (0 <? i)
            && shouldBeReplacedWithBraking Braking_NONE
                 (activePwleFromJavaPrimitive element) braking
         then primitives acc
                ++ [PrimitivePwle_braking
                      (brakingPwle braking (duration (activePwleFromJavaPrimitive element)))]
         else primitives acc
                ++ [PrimitivePwle_active (activePwleFromJavaPrimitive element)])).
    { destruct (0 <? i); cbn [andb].
      - destruct (shouldBeReplacedWithBraking _ _ _) eqn:Hrep.
        + apply Forall_app. split; [exact Hacc |].
          apply Forall_singleton. intros bp Hbp. injection Hbp as <-.
          apply shouldBeReplacedWithBraking_not_NONE in Hrep.
          split; [reflexivity | exact Hrep].
        + apply Forall_app. split; [exact Hacc |].
          apply Forall_singleton. intros bp Hbp. discriminate.
      - apply Forall_app. split; [exact Hacc |].
        apply Forall_singleton. intros bp Hbp. discriminate. }
    destruct (i =? size_t_sub size 1); cbn [andb]; [| exact Hpushed].
    destruct (shouldAddLastBraking _ _ _) eqn:Hadd; [| exact Hpushed].
    apply Forall_app. split; [exact Hpushed |].
    apply Forall_singleton. intros bp Hbp. injection Hbp as <-.
    apply shouldAddLastBraking_not_NONE in Hadd.
    split; [reflexivity | exact Hadd].
Qed.

(** X6: Every braking PWLE of the output carries the braking kind that was
    asked for, and there is none unless that kind differs from NONE. *)
Theorem pwle_compile_braking_kind (Braking_NONE : Braking)
    (waveform : list RampSegment) (brakingId : Z) (pwle : BrakingPwle) :
  PrimitivePwle_braking pwle ∈ primitives (pwle_compile Braking_NONE waveform brakingId) ->
  braking_kind pwle = brakingId /\ brakingId <> Braking_NONE.
Proof.
  intros Hin.
  pose proof (pwle_loop_braking_kind Braking_NONE brakingId
                (Z.of_nat (length waveform)) waveform 0
                {| primitives := []; totalDuration := 0 |}) as Hall.
  specialize (Hall (Forall_nil_2 _)).
  rewrite Forall_forall in Hall.
  apply (Hall _ Hin). reflexivity.
Qed.

Lemma pwle_compile_braking_kind_witness :
  braking_kind (mkBrakingPwle Sample.Braking_CLICK 20) = Sample.Braking_CLICK
  /\ Sample.Braking_CLICK <> Sample.Braking_NONE.
Proof.
  apply (pwle_compile_braking_kind Sample.Braking_NONE hold_gap_decay
           Sample.Braking_CLICK (mkBrakingPwle Sample.Braking_CLICK 20)).
  apply list_elem_of_lookup. exists 1%nat. reflexivity.
Defined.

(** X7: When the extra braking is appended, the last segment itself is kept
    as an active PWLE just before it. *)
Theorem pwle_compile_last_segment_kept (Braking_NONE : Braking)
    (waveform : list RampSegment) (brakingId : Z) (lastElement : RampSegment) :
  is_jarray waveform = true ->
  last waveform = Some lastElement ->
  shouldAddLastBraking Braking_NONE (activePwleFromJavaPrimitive lastElement) brakingId
  = true ->
  primitives (pwle_compile Braking_NONE waveform brakingId) !! (length waveform - 1)%nat
  = Some (PrimitivePwle_active (activePwleFromJavaPrimitive lastElement))
  /\ primitives (pwle_compile Braking_NONE waveform brakingId) !! length waveform
     = Some (PrimitivePwle_braking (brakingPwle brakingId 0)).
Proof.
  intros Harray Hlast Hadd.
  assert (Hi : waveform !! (length waveform - 1)%nat = Some lastElement).
  { rewrite last_lookup in Hlast.
    replace (length waveform - 1)%nat with (Init.Nat.pred (length waveform)) by lia.
    exact Hlast. }
  rewrite pwle_compile_primitives by exact Harray.
  split.
  - rewrite lookup_app_l
      by (rewrite pushed_from_length; apply lookup_lt_Some in Hi; exact Hi).
    rewrite (pushed_from_lookup _ _ _ _ _ _ Hi).
    unfold pushed_at.
    pose proof (braking_predicates_disjoint Braking_NONE
                  (activePwleFromJavaPrimitive lastElement) brakingId) as Hex.
    rewrite Hadd, andb_true_r in Hex. rewrite Hex, andb_false_r. reflexivity.
  - rewrite lookup_app_r by (rewrite pushed_from_length; lia).
    rewrite pushed_from_length, Nat.sub_diag.
    unfold pushed_last. rewrite Hlast, Hadd. reflexivity.
Qed.

Lemma pwle_compile_last_segment_kept_witness :
  primitives (pwle_compile Sample.Braking_NONE hold_gap_decay Sample.Braking_CLICK) !! 2%nat
  = Some (PrimitivePwle_active
            (activePwleFromJavaPrimitive (ramp Float32.half Float32.zero 30)))
  /\ primitives (pwle_compile Sample.Braking_NONE hold_gap_decay Sample.Braking_CLICK) !! 3%nat
     = Some (PrimitivePwle_braking (brakingPwle Sample.Braking_CLICK 0)).
Proof.
  apply (pwle_compile_last_segment_kept Sample.Braking_NONE hold_gap_decay
           Sample.Braking_CLICK (ramp Float32.half Float32.zero 30));
    reflexivity.
Defined.

Lemma pwle_loop_totalDuration_any (NONE1 NONE2 braking1 braking2 : Braking)
    (size1 size2 : Z) (elements : list RampSegment) :
  forall (i1 i2 : Z) (acc1 acc2 : PwleAcc),
    totalDuration acc1 = totalDuration acc2 ->
    totalDuration (pwle_loop NONE1 braking1 size1 i1 elements acc1)
    = totalDuration (pwle_loop NONE2 braking2 size2 i2 elements acc2).
Proof.
  induction elements as [| element rest IH]; intros i1 i2 acc1 acc2 Hacc.
  - exact Hacc.
  - cbn [pwle_loop]. apply IH. unfold pwle_loop_body. cbn [totalDuration].
    rewrite Hacc. reflexivity.
Qed.

(** X8: The total duration does not depend on the braking kind: the same
    waveform gives the same total whatever braking is asked for, also when
    the 64-bit count wraps. *)
Theorem pwle_compile_totalDuration_any_braking (Braking_NONE : Braking)
    (waveform : list RampSegment) (brakingId1 brakingId2 : Z) :
  totalDuration (pwle_compile Braking_NONE waveform brakingId1)
  = totalDuration (pwle_compile Braking_NONE waveform brakingId2).
Proof.
  unfold pwle_compile. apply pwle_loop_totalDuration_any. reflexivity.
Qed.

(** ** Return values *)

Lemma sum_durations_nonneg (waveform : list RampSegment) :
  Forall (fun element => 0 <= mDuration element) waveform ->
  0 <= sum_durations waveform.
Proof.
  induction 1 as [| element rest Hhead _ IH]; cbn [sum_durations]; lia.
Qed.

(** X9: For a waveform without negative durations, [vibratorPerformPwleEffect]
    returns -1 on a live wrapper only when the HAL call failed. *)
Theorem vibratorPerformPwleEffect_minus_one (Braking_NONE : Braking) (st st' : JniState)
    (ptr : Z) (w : VibratorControllerWrapper) (waveform : list RampSegment)
    (brakingId vibrationId : Z) :
  ptr <> 0 ->
  wrappers st !! ptr = Some w ->
  is_waveform waveform = true ->
  Forall (fun element => 0 <= mDuration element) waveform ->
  vibratorPerformPwleEffect Braking_NONE ptr waveform brakingId vibrationId st
  = Done (-1) st' ->
  isFailed
    (doWithRetry (mHal w)
       (fun hal =>
          hal_performPwleEffect hal
            (primitives (pwle_compile Braking_NONE waveform brakingId))
            (createCallback ptr vibrationId))
       "performPwleEffect") = true.
Proof.
  intros Hptr Hlive Hwf Hnonneg. apply Z.eqb_neq in Hptr.
  unfold vibratorPerformPwleEffect. rewrite Hptr. unfold bind.
  rewrite (halCall_live _ _ _ _ _ Hlive).
  destruct (doWithRetry _ _ _) as [[] | | reason]; cbn.
  - unfold is_waveform in Hwf. apply andb_prop in Hwf as [Harray Hints].
    apply is_jarray_length in Harray.
    unfold pwle_compile.
    rewrite pwle_loop_totalDuration; cbn [totalDuration]; [| exact Hints | lia].
    apply sum_durations_nonneg in Hnonneg.
    intros Hdone. injection Hdone as Hminus _. lia.
  - discriminate.
  - reflexivity.
Qed.

Lemma vibratorPerformPwleEffect_minus_one_witness :
  isFailed
    (doWithRetry
       (mHal (SampleRun.live_wrapper (HalResult_failed "dead") Sample.info_nothing_reported))
       (fun hal =>
          hal_performPwleEffect hal
            (primitives (pwle_compile Sample.Braking_NONE hold_gap_decay Sample.Braking_CLICK))
            (createCallback 1 42))
       "performPwleEffect") = true.
Proof.
  apply (vibratorPerformPwleEffect_minus_one Sample.Braking_NONE
           (SampleRun.live_state (HalResult_failed "dead") Sample.info_nothing_reported)
           (SampleRun.live_state (HalResult_failed "dead") Sample.info_nothing_reported)
           1 _ hold_gap_decay Sample.Braking_CLICK 42);
    [discriminate | reflexivity | reflexivity | | reflexivity].
  unfold hold_gap_decay, ramp. repeat constructor; cbn; lia.
Defined.

(** X10: [vibratorOn] returns -1 on a live wrapper only when the HAL call
    failed, unless the timeout it was given is -1 itself. *)
Theorem vibratorOn_minus_one (st st' : JniState) (ptr : Z) (w : VibratorControllerWrapper)
    (timeoutMs vibrationId : Z) :
  ptr <> 0 ->
  wrappers st !! ptr = Some w ->
  timeoutMs <> -1 ->
  vibratorOn ptr timeoutMs vibrationId st = Done (-1) st' ->
  isFailed
    (doWithRetry (mHal w)
       (fun hal => hal_on hal timeoutMs (createCallback ptr vibrationId)) "on") = true.
Proof.
  intros Hptr Hlive Htimeout. apply Z.eqb_neq in Hptr.
  unfold vibratorOn. rewrite Hptr. unfold bind.
  rewrite (halCall_live _ _ _ _ _ Hlive).
  destruct (doWithRetry _ _ _) as [[] | | reason]; cbn.
  - intros Hdone. injection Hdone as Hminus _. contradiction.
  - discriminate.
  - reflexivity.
Qed.

Lemma vibratorOn_minus_one_witness :
  isFailed
    (doWithRetry
       (mHal (SampleRun.live_wrapper (HalResult_failed "dead") Sample.info_nothing_reported))
       (fun hal => hal_on hal 250 (createCallback 1 42)) "on") = true.
Proof.
  apply (vibratorOn_minus_one
           (SampleRun.live_state (HalResult_failed "dead") Sample.info_nothing_reported)
           (SampleRun.live_state (HalResult_failed "dead") Sample.info_nothing_reported)
           1 _ 250 42);
    [discriminate | reflexivity | discriminate | reflexivity].
Defined.

(** ** Construction and destruction *)

(** X11: [vibratorNativeInit] aborts when there is no manager, when the manager
    does not resolve the vibrator id, or when the listener is null. *)
Theorem vibratorNativeInit_aborts (manager : option ManagerHalController)
    (vibratorId callbackListener : Z) (st : JniState) :
  manager = None
  \/ (exists m, manager = Some m /\ isOk (getVibrator m vibratorId) = false)
  \/ callbackListener = 0 ->
  vibratorNativeInit (findVibrator manager) vibratorId callbackListener st
  = Crash FatalAbort.
Proof.
  intros Hbad.
  unfold vibratorNativeInit, VibratorControllerWrapper_ctor, bind, NewGlobalRef.
  assert (Hcases : findVibrator manager vibratorId = None \/ callbackListener = 0).
  { destruct Hbad as [-> | [(m & -> & Hm) | ->]]; [left | left | right]; try reflexivity.
    unfold findVibrator. rewrite Hm. reflexivity. }
  destruct Hcases as [-> | ->].
  - destruct (callbackListener =? 0); reflexivity.
  - cbn. destruct (findVibrator manager vibratorId); reflexivity.
Qed.

Lemma vibratorNativeInit_aborts_witness :
  vibratorNativeInit (findVibrator None) 7 100 empty_state = Crash FatalAbort
  /\ vibratorNativeInit
       (findVibrator (Some (Sample2.manager (HalResult_ok tt) Sample.info_nothing_reported)))
       8 100 empty_state = Crash FatalAbort
  /\ vibratorNativeInit
       (findVibrator (Some (Sample2.manager (HalResult_ok tt) Sample.info_nothing_reported)))
       7 0 empty_state = Crash FatalAbort.
Proof.
  split; [| split].
  - apply vibratorNativeInit_aborts. left. reflexivity.
  - apply vibratorNativeInit_aborts. right. left.
    eexists. split; reflexivity.
  - apply vibratorNativeInit_aborts. right. right. reflexivity.
Defined.

(** X12: When the manager resolves the vibrator id and the listener is not
    null, [vibratorNativeInit] returns a non-null address that held no
    wrapper; the wrapper there carries the resolved controller and the
    vibrator id; wrappers that were live stay as they were and no listener
    is called. *)
Theorem vibratorNativeInit_succeeds (m : ManagerHalController) (hal : HalController)
    (vibratorId callbackListener : Z) (st : JniState) :
  getVibrator m vibratorId = HalResult_ok hal ->
  callbackListener <> 0 ->
  exists (this ref : Z) (st' : JniState),
    vibratorNativeInit (findVibrator (Some m)) vibratorId callbackListener st = Done this st'
    /\ this <> 0
    /\ wrappers st !! this = None
    /\ wrappers st' !! this
       = Some {| mHal := hal; mVibratorId := vibratorId; mCallbackListener := ref |}
    /\ globalRefs st' !! ref = Some callbackListener
    /\ (forall (other : Z) (w : VibratorControllerWrapper),
           wrappers st !! other = Some w -> wrappers st' !! other = Some w)
    /\ onCompleteCalls st' = onCompleteCalls st.
Proof.
  intros Hresolved Hlistener.
  assert (Hfound : findVibrator (Some m) vibratorId = Some hal)
    by (unfold findVibrator; rewrite Hresolved; reflexivity).
  destruct (vibratorNativeInit_live (findVibrator (Some m)) hal vibratorId
              callbackListener st Hfound Hlistener)
    as (this & ref & st' & Hinit & Hthis & Hw & Href & Hcalls).
  exists this, ref, st'.
  pose proof Hinit as Hinv.
  apply vibratorNativeInit_inv in Hinv as (hal' & ref' & _ & Hfresh & _ & Hst').
  repeat split; try assumption.
  intros other w Hother. rewrite Hst'. cbn [wrappers].
  rewrite lookup_insert_ne by congruence. exact Hother.
Qed.

Lemma vibratorNativeInit_succeeds_witness :
  exists (this ref : Z) (st' : JniState),
    vibratorNativeInit
      (findVibrator (Some (Sample2.manager (HalResult_ok tt) Sample.info_nothing_reported)))
      7 100 empty_state = Done this st'
    /\ this <> 0
    /\ wrappers empty_state !! this = None
    /\ wrappers st' !! this
       = Some {| mHal := Sample.controller (HalResult_ok tt) Sample.info_nothing_reported;
                 mVibratorId := 7; mCallbackListener := ref |}
    /\ globalRefs st' !! ref = Some 100
    /\ (forall (other : Z) (w : VibratorControllerWrapper),
           wrappers empty_state !! other = Some w -> wrappers st' !! other = Some w)
    /\ onCompleteCalls st' = onCompleteCalls empty_state.
Proof.
  apply (vibratorNativeInit_succeeds
           (Sample2.manager (HalResult_ok tt) Sample.info_nothing_reported)
           (Sample.controller (HalResult_ok tt) Sample.info_nothing_reported) 7 100
           empty_state);
    [reflexivity | discriminate].
Defined.

(** X13: Destroying the wrapper that [vibratorNativeInit] has just returned
    gives back the native state as it was before: no wrapper and no global
    reference is left behind. *)
Theorem vibratorNativeInit_destroy_round_trip (finder : Z -> option HalController)
    (vibratorId callbackListener this : Z) (st st' : JniState) :
  vibratorNativeInit finder vibratorId callbackListener st = Done this st' ->
  destroyNativeWrapper this st' = Done tt st.
Proof.
  intros Hinit.
  assert (Hthis : this <> 0).
  { unfold vibratorNativeInit, VibratorControllerWrapper_ctor, bind in Hinit.
    destruct (NewGlobalRef callbackListener st) as [ref st1 |]; [| discriminate].
    destruct (finder vibratorId); [| discriminate].
    destruct (ref =? 0); [discriminate |].
    unfold alloc, initHal, bind, deref in Hinit. cbn [wrappers] in Hinit.
    rewrite lookup_insert_eq in Hinit. injection Hinit as <- _.
    intros Heq. apply (is_fresh ({[0]} ∪ dom (wrappers st1))). rewrite Heq. set_solver. }
  apply vibratorNativeInit_inv in Hinit as (hal & ref & _ & Hfresh & Hnew & ->).
  apply Z.eqb_neq in Hthis.
  unfold destroyNativeWrapper. rewrite Hthis.
  unfold VibratorControllerWrapper_dtor, bind, deref. cbn [wrappers].
  rewrite lookup_insert_eq. unfold DeleteGlobalRef. cbn [globalRefs mCallbackListener].
  rewrite lookup_insert_eq. unfold dealloc. cbn [wrappers globalRefs onCompleteCalls].
  rewrite !delete_insert_id by assumption.
  destruct st; reflexivity.
Qed.

Lemma vibratorNativeInit_destroy_round_trip_witness :
  destroyNativeWrapper 1
    (SampleRun.live_state (HalResult_ok tt) Sample.info_nothing_reported)
  = Done tt empty_state.
Proof.
  apply (vibratorNativeInit_destroy_round_trip
           (Sample.findVibrator (HalResult_ok tt) Sample.info_nothing_reported) 7 100 1).
  vm_compute. reflexivity.
Defined.

(** X14: Destroying the same wrapper twice in a row is a fault: called
    again on the state that the first call has left, with nothing
    initialised in between, [destroyNativeWrapper] reads the wrapper that
    the first call released. *)
Theorem destroyNativeWrapper_twice (ptr : Z) (st st' : JniState) :
  ptr <> 0 ->
  destroyNativeWrapper ptr st = Done tt st' ->
  destroyNativeWrapper ptr st' = Crash UseAfterFree.
Proof.
  intros Hptr Hdestroy.
  apply (destroyNativeWrapper_inv _ _ _ Hptr) in Hdestroy as (w & _ & ->).
  apply Z.eqb_neq in Hptr.
  unfold destroyNativeWrapper. rewrite Hptr.
  unfold VibratorControllerWrapper_dtor, bind, deref. cbn [wrappers].
  rewrite lookup_delete_eq. reflexivity.
Qed.

Lemma destroyNativeWrapper_twice_witness :
  destroyNativeWrapper 1 empty_state = Crash UseAfterFree.
Proof.
  apply (destroyNativeWrapper_twice 1
           (SampleRun.live_state (HalResult_ok tt) Sample.info_nothing_reported));
    [discriminate | vm_compute; reflexivity].
Defined.

(** ** Callbacks over the life of the controllers *)

Lemma native_step_ok (st st' : JniState) :
  native_step st st' -> state_ok st -> state_ok st'.
Proof.
  intros Hstep Hok.
  destruct Hstep as
    [ finder vibratorId callbackListener this st st' Hinit
    | ptr st st' Hdestroy
    | callback st st' Hcall ].
  - eapply vibratorNativeInit_ok; eassumption.
  - eapply destroyNativeWrapper_ok; eassumption.
  - apply Callback_call_keeps in Hcall as [Hwrappers Hrefs].
    unfold state_ok. rewrite Hwrappers, Hrefs. exact Hok.
Qed.

Lemma rtc_native_step_ok (st st' : JniState) :
  rtc native_step st st' -> state_ok st -> state_ok st'.
Proof.
  induction 1 as [st | st st1 st' Hstep _ IH]; intros Hok.
  - exact Hok.
  - apply IH. eapply native_step_ok; eassumption.
Qed.

(** X15: In every state that initialisations, destructions and callback calls
    reach from the empty state, the callback of a wrapper that is live is
    delivered: it adds one [onComplete] with the wrapper's vibrator id and
    the vibration id, and faults never. *)
Theorem reachable_callback_delivered (st : JniState) (this : Z)
    (w : VibratorControllerWrapper) (vibrationId : Z) :
  rtc native_step empty_state st ->
  wrappers st !! this = Some w ->
  exists listenerObject : Z,
    Callback_call (createCallback this vibrationId) st
    = Done tt
        {| wrappers := wrappers st;
           globalRefs := globalRefs st;
           onCompleteCalls :=
             onCompleteCalls st
               ++ [ {| listener := listenerObject;
                       vibratorId_arg := mVibratorId w;
                       vibrationId_arg := vibrationId |} ] |}.
Proof.
  intros Hreach Hlive.
  destruct (rtc_native_step_ok _ _ Hreach state_ok_empty) as [Hrefs _].
  destruct (Hrefs _ _ Hlive) as [listenerObject Hlistener].
  exists listenerObject.
  unfold Callback_call, createCallback, bind, deref.
  cbn [captured_this captured_vibrationId]. rewrite Hlive.
  unfold CallVoidMethod_onComplete. rewrite Hlistener. reflexivity.
Qed.

Lemma reachable_callback_delivered_witness :
  exists listenerObject : Z,
    Callback_call (createCallback 1 42)
      (SampleRun.live_state (HalResult_ok tt) Sample.info_nothing_reported)
    = Done tt
        {| wrappers :=
             wrappers (SampleRun.live_state (HalResult_ok tt) Sample.info_nothing_reported);
           globalRefs :=
             globalRefs (SampleRun.live_state (HalResult_ok tt) Sample.info_nothing_reported);
           onCompleteCalls :=
             [ {| listener := listenerObject; vibratorId_arg := 7; vibrationId_arg := 42 |} ] |}.
Proof.
  apply (reachable_callback_delivered
           (SampleRun.live_state (HalResult_ok tt) Sample.info_nothing_reported) 1
           (SampleRun.live_wrapper (HalResult_ok tt) Sample.info_nothing_reported) 42).
  - apply rtc_once.
    apply (native_init (Sample.findVibrator (HalResult_ok tt) Sample.info_nothing_reported)
             7 100 1).
    vm_compute. reflexivity.
  - reflexivity.
Defined.

(** X16: Destroying one controller leaves the callbacks of another one
    working: they still reach the same listener with the same vibrator
    id. *)
Theorem destroy_keeps_other_callback (st st' : JniState) (ptr this : Z)
    (w : VibratorControllerWrapper) (listenerObject vibrationId : Z) :
  state_ok st ->
  live_with st this w listenerObject ->
  this <> ptr ->
  destroyNativeWrapper ptr st = Done tt st' ->
  Callback_call (createCallback this vibrationId) st'
  = Done tt
      {| wrappers := wrappers st';
         globalRefs := globalRefs st';
         onCompleteCalls :=
           onCompleteCalls st'
             ++ [ {| listener := listenerObject;
                     vibratorId_arg := mVibratorId w;
                     vibrationId_arg := vibrationId |} ] |}.
Proof.
  intros Hok Hlive Hother Hdestroy.
  destruct (destroyNativeWrapper_keeps _ _ _ _ _ _ Hok Hlive Hother Hdestroy)
    as [Hw Hlistener].
  unfold Callback_call, createCallback, bind, deref.
  cbn [captured_this captured_vibrationId]. rewrite Hw.
  unfold CallVoidMethod_onComplete. rewrite Hlistener. reflexivity.
Qed.

Lemma two_controllers_run :
  (first <- vibratorNativeInit
              (Sample.findVibrator (HalResult_ok tt) Sample.info_nothing_reported) 7 100 ;;
   vibratorNativeInit
     (Sample.findVibrator (HalResult_ok tt) Sample.info_nothing_reported) 7 200)
    empty_state
  = Done 2 Sample2.two_controllers.
Proof. vm_compute. reflexivity. Qed.

Lemma two_controllers_ok : state_ok Sample2.two_controllers.
Proof.
  pose proof two_controllers_run as Hrun. unfold bind in Hrun.
  rewrite sample_init in Hrun.
  eapply vibratorNativeInit_ok; [| exact Hrun].
  eapply vibratorNativeInit_ok; [exact state_ok_empty | apply sample_init].
Qed.

Lemma destroy_keeps_other_callback_witness :
  exists st' : JniState,
    destroyNativeWrapper 2 Sample2.two_controllers = Done tt st'
    /\ Callback_call (createCallback 1 42) st'
       = Done tt
           {| wrappers := wrappers st';
              globalRefs := globalRefs st';
              onCompleteCalls :=
                onCompleteCalls st'
                  ++ [ {| listener := 100; vibratorId_arg := 7; vibrationId_arg := 42 |} ] |}.
Proof.
  eexists. split.
  - vm_compute. reflexivity.
  - apply (destroy_keeps_other_callback Sample2.two_controllers _ 2 1
             (SampleRun.live_wrapper (HalResult_ok tt) Sample.info_nothing_reported) 100 42).
    + exact two_controllers_ok.
    + split; reflexivity.
    + discriminate.
    + vm_compute. reflexivity.
Defined.

Lemma call_callbacks_from (this : Z) (w : VibratorControllerWrapper) (listenerObject : Z)
    (vibrationIds : list Z) :
  forall st : JniState,
    live_with st this w listenerObject ->
    call_callbacks (map (createCallback this) vibrationIds) st
    = Done tt
        {| wrappers := wrappers st;
           globalRefs := globalRefs st;
           onCompleteCalls :=
             onCompleteCalls st
               ++ map (fun vibrationId =>
                         {| listener := listenerObject;
                            vibratorId_arg := mVibratorId w;
                            vibrationId_arg := vibrationId |}) vibrationIds |}.
Proof.
  induction vibrationIds as [| vibrationId rest IH]; intros st [Hlive Hlistener].
  - cbn. rewrite app_nil_r. destruct st; reflexivity.
  - cbn [map call_callbacks]. unfold bind at 1.
    unfold Callback_call, createCallback, bind, deref.
    cbn [captured_this captured_vibrationId]. rewrite Hlive.
    unfold CallVoidMethod_onComplete. rewrite Hlistener.
    rewrite IH by (split; assumption).
    cbn [wrappers globalRefs onCompleteCalls].
    rewrite <- app_assoc. reflexivity.
Qed.

(** X17: Callbacks of a live controller that are called one after the other
    are delivered one by one in that order, repeated ones included:
    nothing is dropped, merged or reordered. *)
Theorem call_callbacks_delivers_all (st : JniState) (this : Z)
    (w : VibratorControllerWrapper) (listenerObject : Z) (vibrationIds : list Z) :
  wrappers st !! this = Some w ->
  globalRefs st !! mCallbackListener w = Some listenerObject ->
  exists st' : JniState,
    call_callbacks (map (createCallback this) vibrationIds) st = Done tt st'
    /\ wrappers st' = wrappers st
    /\ globalRefs st' = globalRefs st
    /\ onCompleteCalls st'
       = onCompleteCalls st
           ++ map (fun vibrationId =>
                     {| listener := listenerObject;
                        vibratorId_arg := mVibratorId w;
                        vibrationId_arg := vibrationId |}) vibrationIds.
Proof.
  intros Hlive Hlistener.
  eexists. split.
  - apply (call_callbacks_from this w listenerObject). split; assumption.
  - repeat split.
Qed.

Lemma call_callbacks_delivers_all_witness :
  exists st' : JniState,
    call_callbacks (map (createCallback 1) [42; 43; 42])
      (SampleRun.live_state (HalResult_ok tt) Sample.info_nothing_reported) = Done tt st'
    /\ wrappers st'
       = wrappers (SampleRun.live_state (HalResult_ok tt) Sample.info_nothing_reported)
    /\ globalRefs st'
       = globalRefs (SampleRun.live_state (HalResult_ok tt) Sample.info_nothing_reported)
    /\ onCompleteCalls st'
       = [ mkOnComplete 100 7 42; mkOnComplete 100 7 43; mkOnComplete 100 7 42 ].
Proof.
  apply (call_callbacks_delivers_all
           (SampleRun.live_state (HalResult_ok tt) Sample.info_nothing_reported) 1
           (SampleRun.live_wrapper (HalResult_ok tt) Sample.info_nothing_reported) 100
           [42; 43; 42]);
    reflexivity.
Defined.

(** ** The info snapshot, further *)

Lemma valueOr_value_if_ok {T : Type} (r : HalResult T) (defaultValue : T) :
  valueOr r defaultValue = default defaultValue (value_if_ok r).
Proof. destruct r; reflexivity. Qed.

(** X18: [vibratorGetInfo] does not tell an unsupported query from a failed
    one: two controllers whose infos report the same values, whatever the
    kind of their missing results, give the same snapshot. *)
Theorem vibratorGetInfo_same_reports (Capabilities_NONE : Z) (st1 st2 : JniState)
    (ptr : Z) (w1 w2 : VibratorControllerWrapper) (suggestedSafeRange : float) :
  wrappers st1 !! ptr = Some w1 ->
  wrappers st2 !! ptr = Some w2 ->
  mVibratorId w1 = mVibratorId w2 ->
  same_reports (getInfo (mHal w1)) (getInfo (mHal w2)) ->
  result_of (vibratorGetInfo Capabilities_NONE ptr suggestedSafeRange st1)
  = result_of (vibratorGetInfo Capabilities_NONE ptr suggestedSafeRange st2).
Proof.
  intros Hlive1 Hlive2 Hid Hsame.
  unfold vibratorGetInfo. destruct (ptr =? 0); [reflexivity |].
  unfold bind, getVibratorInfo, getVibratorId, bind.
  rewrite (deref_live _ _ _ Hlive1), (deref_live _ _ _ Hlive2). cbn [ret].
  rewrite (deref_live _ _ _ Hlive1), (deref_live _ _ _ Hlive2). cbn [ret result_of].
  unfold same_reports, same_report in Hsame.
  destruct Hsame as (Hc & He & Hb & Hp & Hmin & Hres & Hfr & Hq & Hmax).
  rewrite !valueOr_value_if_ok.
  rewrite Hc, He, Hb, Hp, Hmin, Hres, Hfr, Hq, Hmax, Hid. reflexivity.
Qed.

Lemma vibratorGetInfo_same_reports_witness :
  result_of
    (vibratorGetInfo Sample.Capabilities_NONE 1 Float32.one
       (SampleRun.live_state (HalResult_ok tt) Sample.info_nothing_reported))
  = result_of
      (vibratorGetInfo Sample.Capabilities_NONE 1 Float32.one
         (SampleRun.live_state (HalResult_ok tt) Sample2.info_failed)).
Proof.
  apply (vibratorGetInfo_same_reports Sample.Capabilities_NONE _ _ 1
           (SampleRun.live_wrapper (HalResult_ok tt) Sample.info_nothing_reported)
           (SampleRun.live_wrapper (HalResult_ok tt) Sample2.info_failed) Float32.one);
    [reflexivity | reflexivity | reflexivity | repeat split].
Defined.

(** X19: For a live wrapper [vibratorGetInfo] always builds a snapshot, never
    null, whatever the hardware reports; its id is the wrapper's vibrator
    id and its suggested safe range is the argument it was given; the
    native state is left as it is. *)
Theorem vibratorGetInfo_id_and_range (Capabilities_NONE : Z) (st : JniState) (ptr : Z)
    (w : VibratorControllerWrapper) (suggestedSafeRange : float) :
  ptr <> 0 ->
  wrappers st !! ptr = Some w ->
  exists out : VibratorInfo,
    vibratorGetInfo Capabilities_NONE ptr suggestedSafeRange st = Done (Some out) st
    /\ vi_id out = mVibratorId w
    /\ fm_suggestedSafeRange (vi_frequencyMapping out) = suggestedSafeRange.
Proof.
  intros Hptr Hlive. apply Z.eqb_neq in Hptr.
  eexists. split.
  - unfold vibratorGetInfo. rewrite Hptr.
    unfold bind, getVibratorInfo, getVibratorId, bind.
    rewrite (deref_live _ _ _ Hlive). cbn [ret].
    rewrite (deref_live _ _ _ Hlive). reflexivity.
  - split; reflexivity.
Qed.

Lemma vibratorGetInfo_id_and_range_witness :
  exists out : VibratorInfo,
    vibratorGetInfo Sample.Capabilities_NONE 1 Float32.half
      (SampleRun.live_state (HalResult_ok tt) Sample2.info_failed)
    = Done (Some out) (SampleRun.live_state (HalResult_ok tt) Sample2.info_failed)
    /\ vi_id out = 7
    /\ fm_suggestedSafeRange (vi_frequencyMapping out) = Float32.half.
Proof.
  apply (vibratorGetInfo_id_and_range Sample.Capabilities_NONE
           (SampleRun.live_state (HalResult_ok tt) Sample2.info_failed) 1
           (SampleRun.live_wrapper (HalResult_ok tt) Sample2.info_failed) Float32.half);
    [discriminate | reflexivity].
Defined.

(** ** The remaining entry points *)

Lemma composed_loop_app (elements : list PrimitiveSegment) :
  forall effects : list CompositeEffect,
    composed_loop elements effects = effects ++ map effectFromJavaPrimitive elements.
Proof.
  induction elements as [| element rest IH]; intros effects; cbn [composed_loop map].
  - rewrite app_nil_r. reflexivity.
  - rewrite IH, <- app_assoc. reflexivity.
Qed.


Section EntryPointFacts.

Variable hal_ping : HalWrapper -> HalResult unit.
Variable hal_off : HalWrapper -> HalResult unit.
Variable hal_setAmplitude : HalWrapper -> float -> HalResult unit.
Variable hal_setExternalControl : HalWrapper -> bool -> HalResult unit.
Variable hal_performEffect : HalWrapper -> Z -> Z -> Callback -> HalResult Z.
Variable hal_performComposedEffect :
  HalWrapper -> list CompositeEffect -> Callback -> HalResult Z.
Variable hal_alwaysOnEnable : HalWrapper -> Z -> Z -> Z -> HalResult unit.
Variable hal_alwaysOnDisable : HalWrapper -> Z -> HalResult unit.
Variable doWithRetry_ms :
  HalController -> HalFunction (HalResult Z) -> string -> HalResult Z.
Variable Effect_of_jlong : Z -> Z.
Variable EffectStrength_of_jlong : Z -> Z.
Variable Braking_NONE : Braking.
Variable Capabilities_NONE : Z.

Lemma halCall_freed (st : JniState) (this : Z)
    (fn : HalFunction (HalResult unit)) (functionName : string) :
  wrappers st !! this = None ->
  halCall this fn functionName st = Crash UseAfterFree.
Proof.
  intros Hfreed. unfold halCall, bind. rewrite (deref_freed _ _ Hfreed). reflexivity.
Qed.

Lemma halCall_ms_freed (st : JniState) (this : Z)
    (fn : HalFunction (HalResult Z)) (functionName : string) :
  wrappers st !! this = None ->
  halCall_ms doWithRetry_ms this fn functionName st = Crash UseAfterFree.
Proof.
  intros Hfreed. unfold halCall_ms, bind. rewrite (deref_freed _ _ Hfreed). reflexivity.
Qed.

Lemma halCall_ms_live (st : JniState) (this : Z) (w : VibratorControllerWrapper)
    (fn : HalFunction (HalResult Z)) (functionName : string) :
  wrappers st !! this = Some w ->
  halCall_ms doWithRetry_ms this fn functionName st
  = Done (doWithRetry_ms (mHal w) fn functionName) st.
Proof.
  intros Hlive. unfold halCall_ms, bind. rewrite (deref_live _ _ _ Hlive). reflexivity.
Qed.

(** X20: Called with a null wrapper pointer, every entry point returns at once
    with its failure value (-1, false, null, or nothing) in any native
    state, also one without wrappers: no wrapper is read, no listener is
    called. *)
Theorem null_pointer_rejected (st : JniState) :
  (forall timeoutMs vibrationId, vibratorOn 0 timeoutMs vibrationId st = Done (-1) st)
  /\ (forall waveform brakingId vibrationId,
         vibratorPerformPwleEffect Braking_NONE 0 waveform brakingId vibrationId st
         = Done (-1) st)
  /\ (forall effect strength vibrationId,
         vibratorPerformEffect hal_performEffect doWithRetry_ms Effect_of_jlong
           EffectStrength_of_jlong 0 effect strength vibrationId st = Done (-1) st)
  /\ (forall composition vibrationId,
         vibratorPerformComposedEffect hal_performComposedEffect doWithRetry_ms
           0 composition vibrationId st = Done (-1) st)
  /\ (forall suggestedSafeRange,
         vibratorGetInfo Capabilities_NONE 0 suggestedSafeRange st = Done None st)
  /\ vibratorIsAvailable hal_ping 0 st = Done false st
  /\ vibratorOff hal_off 0 st = Done tt st
  /\ (forall amplitude, vibratorSetAmplitude hal_setAmplitude 0 amplitude st = Done tt st)
  /\ (forall enabled,
         vibratorSetExternalControl hal_setExternalControl 0 enabled st = Done tt st)
  /\ (forall id effect strength,
         vibratorAlwaysOnEnable hal_alwaysOnEnable Effect_of_jlong EffectStrength_of_jlong
           0 id effect strength st = Done tt st)
  /\ (forall id, vibratorAlwaysOnDisable hal_alwaysOnDisable 0 id st = Done tt st)
  /\ destroyNativeWrapper 0 st = Done tt st.
Proof.
  repeat split.
Qed.

(** X21: In a state in which a non-null address holds no wrapper, as is the
    one that [destroyNativeWrapper] leaves for the address it was given,
    every entry point that is called with that address is a fault: none
    of them checks that the address holds a wrapper. *)
Theorem destroyed_pointer_faults (st' : JniState) (ptr : Z) :
  ptr <> 0 ->
  wrappers st' !! ptr = None ->
  (forall timeoutMs vibrationId,
      vibratorOn ptr timeoutMs vibrationId st' = Crash UseAfterFree)
  /\ (forall waveform brakingId vibrationId,
         vibratorPerformPwleEffect Braking_NONE ptr waveform brakingId vibrationId st'
         = Crash UseAfterFree)
  /\ (forall effect strength vibrationId,
         vibratorPerformEffect hal_performEffect doWithRetry_ms Effect_of_jlong
           EffectStrength_of_jlong ptr effect strength vibrationId st' = Crash UseAfterFree)
  /\ (forall composition vibrationId,
         vibratorPerformComposedEffect hal_performComposedEffect doWithRetry_ms
           ptr composition vibrationId st' = Crash UseAfterFree)
  /\ (forall suggestedSafeRange,
         vibratorGetInfo Capabilities_NONE ptr suggestedSafeRange st' = Crash UseAfterFree)
  /\ vibratorIsAvailable hal_ping ptr st' = Crash UseAfterFree
  /\ vibratorOff hal_off ptr st' = Crash UseAfterFree
  /\ (forall amplitude,
         vibratorSetAmplitude hal_setAmplitude ptr amplitude st' = Crash UseAfterFree)
  /\ (forall enabled,
         vibratorSetExternalControl hal_setExternalControl ptr enabled st'
         = Crash UseAfterFree)
  /\ (forall id effect strength,
         vibratorAlwaysOnEnable hal_alwaysOnEnable Effect_of_jlong EffectStrength_of_jlong
           ptr id effect strength st' = Crash UseAfterFree)
  /\ (forall id, vibratorAlwaysOnDisable hal_alwaysOnDisable ptr id st' = Crash UseAfterFree).
Proof.
  intros Hptr Hfreed.
  apply Z.eqb_neq in Hptr.
  unfold vibratorOn, vibratorPerformPwleEffect, vibratorPerformEffect,
    vibratorPerformComposedEffect, vibratorGetInfo, vibratorIsAvailable, vibratorOff,
    vibratorSetAmplitude, vibratorSetExternalControl, vibratorAlwaysOnEnable,
    vibratorAlwaysOnDisable.
  rewrite Hptr.
  repeat split; intros; unfold bind;
    rewrite ?halCall_freed, ?halCall_ms_freed by exact Hfreed; try reflexivity.
  unfold getVibratorInfo, bind. rewrite (deref_freed _ _ Hfreed). reflexivity.
Qed.

(** X22: On a live wrapper [vibratorIsAvailable] answers true exactly when the
    ping is ok: an unsupported ping and a failed one both give false. *)
Theorem vibratorIsAvailable_iff (st : JniState) (ptr : Z) (w : VibratorControllerWrapper) :
  ptr <> 0 ->
  wrappers st !! ptr = Some w ->
  (exists available : bool, vibratorIsAvailable hal_ping ptr st = Done available st)
  /\ (vibratorIsAvailable hal_ping ptr st = Done true st
      <-> isOk (doWithRetry (mHal w) (fun hal => hal_ping hal) "ping") = true).
Proof.
  intros Hptr Hlive. apply Z.eqb_neq in Hptr.
  unfold vibratorIsAvailable. rewrite Hptr. unfold bind.
  rewrite (halCall_live _ _ _ _ _ Hlive). unfold ret.
  destruct (isOk _).
  - split; [exists true; reflexivity | split; reflexivity].
  - split; [exists false; reflexivity | split; intros Habs; discriminate Habs].
Qed.

(** X23: On a live wrapper [vibratorPerformEffect] returns the duration that
    the HAL reports when the call is ok, 0 when it is unsupported and -1
    when it failed. *)
Theorem vibratorPerformEffect_result (st : JniState) (ptr : Z)
    (w : VibratorControllerWrapper) (effect strength vibrationId : Z)
    (result : HalResult Z) :
  ptr <> 0 ->
  wrappers st !! ptr = Some w ->
  doWithRetry_ms (mHal w)
    (fun hal =>
       hal_performEffect hal (Effect_of_jlong effect) (EffectStrength_of_jlong strength)
         (createCallback ptr vibrationId))
    "performEffect" = result ->
  (forall milliseconds, result = HalResult_ok milliseconds ->
     vibratorPerformEffect hal_performEffect doWithRetry_ms Effect_of_jlong
       EffectStrength_of_jlong ptr effect strength vibrationId st = Done milliseconds st)
  /\ (isUnsupported result = true ->
      vibratorPerformEffect hal_performEffect doWithRetry_ms Effect_of_jlong
        EffectStrength_of_jlong ptr effect strength vibrationId st = Done 0 st)
  /\ (isFailed result = true ->
      vibratorPerformEffect hal_performEffect doWithRetry_ms Effect_of_jlong
        EffectStrength_of_jlong ptr effect strength vibrationId st = Done (-1) st).
Proof.
  intros Hptr Hlive Hcall. apply Z.eqb_neq in Hptr.
  unfold vibratorPerformEffect. rewrite Hptr. unfold bind.
  rewrite (halCall_ms_live _ _ _ _ _ Hlive), Hcall.
  unfold ret.
  destruct result as [value | | reason]; cbn; repeat split; intros; congruence.
Qed.

(** X24: On a live wrapper [vibratorPerformComposedEffect] sends one effect per
    element of the composition, in the order of the array and with the
    element's primitive id, scale and delay, and returns the duration
    that the HAL reports when the call is ok, 0 when it is unsupported and
    -1 when it failed. *)
Theorem vibratorPerformComposedEffect_result (st : JniState) (ptr : Z)
    (w : VibratorControllerWrapper) (composition : list PrimitiveSegment)
    (vibrationId : Z) (result : HalResult Z) :
  ptr <> 0 ->
  wrappers st !! ptr = Some w ->
  doWithRetry_ms (mHal w)
    (fun hal =>
       hal_performComposedEffect hal
         (map (fun segment =>
                 {| primitive := mPrimitiveId segment;
                    scale := mScale segment;
                    delayMs := mDelay segment |})
            composition)
         (createCallback ptr vibrationId))
    "performComposedEffect" = result ->
  (forall milliseconds, result = HalResult_ok milliseconds ->
     vibratorPerformComposedEffect hal_performComposedEffect doWithRetry_ms
       ptr composition vibrationId st = Done milliseconds st)
  /\ (isUnsupported result = true ->
      vibratorPerformComposedEffect hal_performComposedEffect doWithRetry_ms
        ptr composition vibrationId st = Done 0 st)
  /\ (isFailed result = true ->
      vibratorPerformComposedEffect hal_performComposedEffect doWithRetry_ms
        ptr composition vibrationId st = Done (-1) st).
Proof.
  intros Hptr Hlive Hcall. apply Z.eqb_neq in Hptr.
  unfold vibratorPerformComposedEffect. rewrite Hptr. unfold bind.
  rewrite composed_loop_app. cbn [app].
  change (map effectFromJavaPrimitive composition)
    with (map (fun segment =>
                 {| primitive := mPrimitiveId segment;
                    scale := mScale segment;
                    delayMs := mDelay segment |})
            composition).
  rewrite (halCall_ms_live _ _ _ _ _ Hlive), Hcall.
  unfold ret.
  destruct result as [value | | reason]; cbn; repeat split; intros; congruence.
Qed.


End EntryPointFacts.

Lemma destroyed_pointer_faults_witness :
  vibratorOn 2 250 42
    (SampleRun.live_state (HalResult_ok tt) Sample.info_nothing_reported)
  = Crash UseAfterFree
  /\ vibratorPerformPwleEffect Sample.Braking_NONE 2 hold_gap_decay Sample.Braking_CLICK 42
       (SampleRun.live_state (HalResult_ok tt) Sample.info_nothing_reported)
     = Crash UseAfterFree
  /\ vibratorGetInfo Sample.Capabilities_NONE 2 Float32.one
       (SampleRun.live_state (HalResult_ok tt) Sample.info_nothing_reported)
     = Crash UseAfterFree
  /\ vibratorIsAvailable (Sample2.ping (HalResult_ok tt)) 2
       (SampleRun.live_state (HalResult_ok tt) Sample.info_nothing_reported)
     = Crash UseAfterFree.
Proof.
  destruct (destroyed_pointer_faults
              (Sample2.ping (HalResult_ok tt)) (Sample2.ping (HalResult_ok tt))
              (fun _ _ => HalResult_ok tt) (fun _ _ => HalResult_ok tt)
              (Sample2.performEffect (HalResult_ok 120))
              (Sample2.performComposedEffect (HalResult_ok 120))
              Sample2.alwaysOnEnable Sample2.alwaysOnDisable Sample2.doWithRetry_ms
              (fun x => x) (fun x => x) Sample.Braking_NONE Sample.Capabilities_NONE
              (SampleRun.live_state (HalResult_ok tt) Sample.info_nothing_reported) 2)
    as (Hon & Hpwle & _ & _ & Hinfo & Havailable & _).
  - discriminate.
  - reflexivity.
  - split; [apply Hon | split; [apply Hpwle | split; [apply Hinfo | exact Havailable]]].
Defined.

Lemma vibratorIsAvailable_iff_witness :
  vibratorIsAvailable (Sample2.ping (HalResult_ok tt)) 1
    (SampleRun.live_state (HalResult_ok tt) Sample.info_nothing_reported)
  = Done true (SampleRun.live_state (HalResult_ok tt) Sample.info_nothing_reported)
  <-> isOk (Sample2.ping (HalResult_ok tt) (Sample.hal_answering (HalResult_ok tt))) = true.
Proof.
  apply (vibratorIsAvailable_iff (Sample2.ping (HalResult_ok tt))
           (SampleRun.live_state (HalResult_ok tt) Sample.info_nothing_reported) 1
           (SampleRun.live_wrapper (HalResult_ok tt) Sample.info_nothing_reported));
    [discriminate | reflexivity].
Defined.

Lemma vibratorPerformEffect_result_witness :
  vibratorPerformEffect (Sample2.performEffect (HalResult_ok 120)) Sample2.doWithRetry_ms
    (fun x => x) (fun x => x) 1 0 2 42
    (SampleRun.live_state (HalResult_ok tt) Sample.info_nothing_reported)
  = Done 120 (SampleRun.live_state (HalResult_ok tt) Sample.info_nothing_reported)
  /\ vibratorPerformEffect (Sample2.performEffect HalResult_unsupported)
       Sample2.doWithRetry_ms (fun x => x) (fun x => x) 1 0 2 42
       (SampleRun.live_state (HalResult_ok tt) Sample.info_nothing_reported)
     = Done 0 (SampleRun.live_state (HalResult_ok tt) Sample.info_nothing_reported)
  /\ vibratorPerformEffect (Sample2.performEffect (HalResult_failed "dead"))
       Sample2.doWithRetry_ms (fun x => x) (fun x => x) 1 0 2 42
       (SampleRun.live_state (HalResult_ok tt) Sample.info_nothing_reported)
     = Done (-1) (SampleRun.live_state (HalResult_ok tt) Sample.info_nothing_reported).
Proof.
  split; [| split].
  - apply (vibratorPerformEffect_result (Sample2.performEffect (HalResult_ok 120))
             Sample2.doWithRetry_ms (fun x => x) (fun x => x) _ 1
             (SampleRun.live_wrapper (HalResult_ok tt) Sample.info_nothing_reported)
             0 2 42 (HalResult_ok 120));
      [discriminate | reflexivity | reflexivity | reflexivity].
  - apply (vibratorPerformEffect_result (Sample2.performEffect HalResult_unsupported)
             Sample2.doWithRetry_ms (fun x => x) (fun x => x) _ 1
             (SampleRun.live_wrapper (HalResult_ok tt) Sample.info_nothing_reported)
             0 2 42 HalResult_unsupported);
      [discriminate | reflexivity | reflexivity | reflexivity].
  - apply (vibratorPerformEffect_result (Sample2.performEffect (HalResult_failed "dead"))
             Sample2.doWithRetry_ms (fun x => x) (fun x => x) _ 1
             (SampleRun.live_wrapper (HalResult_ok tt) Sample.info_nothing_reported)
             0 2 42 (HalResult_failed "dead"));
      [discriminate | reflexivity | reflexivity | reflexivity].
Defined.

Lemma vibratorPerformComposedEffect_result_witness :
  vibratorPerformComposedEffect Sample2.performComposedEffect_digits
    Sample2.doWithRetry_ms 1 Sample2.click_tick 42
    (SampleRun.live_state (HalResult_ok tt) Sample.info_nothing_reported)
  = Done 100007057 (SampleRun.live_state (HalResult_ok tt) Sample.info_nothing_reported)
  /\ vibratorPerformComposedEffect (Sample2.performComposedEffect HalResult_unsupported)
       Sample2.doWithRetry_ms 1 Sample2.click_tick 42
       (SampleRun.live_state (HalResult_ok tt) Sample.info_nothing_reported)
     = Done 0 (SampleRun.live_state (HalResult_ok tt) Sample.info_nothing_reported)
  /\ vibratorPerformComposedEffect (Sample2.performComposedEffect (HalResult_failed "dead"))
       Sample2.doWithRetry_ms 1 Sample2.click_tick 42
       (SampleRun.live_state (HalResult_ok tt) Sample.info_nothing_reported)
     = Done (-1) (SampleRun.live_state (HalResult_ok tt) Sample.info_nothing_reported).
Proof.
  split; [| split].
  - apply (vibratorPerformComposedEffect_result
             Sample2.performComposedEffect_digits Sample2.doWithRetry_ms _ 1
             (SampleRun.live_wrapper (HalResult_ok tt) Sample.info_nothing_reported)
             Sample2.click_tick 42 (HalResult_ok 100007057));
      [discriminate | reflexivity | reflexivity | reflexivity].
  - apply (vibratorPerformComposedEffect_result
             (Sample2.performComposedEffect HalResult_unsupported) Sample2.doWithRetry_ms _ 1
             (SampleRun.live_wrapper (HalResult_ok tt) Sample.info_nothing_reported)
             Sample2.click_tick 42 HalResult_unsupported);
      [discriminate | reflexivity | reflexivity | reflexivity].
  - apply (vibratorPerformComposedEffect_result
             (Sample2.performComposedEffect (HalResult_failed "dead")) Sample2.doWithRetry_ms
             _ 1
             (SampleRun.live_wrapper (HalResult_ok tt) Sample.info_nothing_reported)
             Sample2.click_tick 42 (HalResult_failed "dead"));
      [discriminate | reflexivity | reflexivity | reflexivity].
Defined.

Lemma callback_of_initialised_controller_witness :
  Callback_call (createCallback 1 42)
    {| wrappers := {[ 1 := SampleRun.live_wrapper (HalResult_ok tt) Sample.info_nothing_reported ]};
       globalRefs := {[ 1 := 100 ]};
       onCompleteCalls := [ mkOnComplete 100 7 41 ] |}
  = Done tt
      {| wrappers := {[ 1 := SampleRun.live_wrapper (HalResult_ok tt) Sample.info_nothing_reported ]};
         globalRefs := {[ 1 := 100 ]};
         onCompleteCalls := [ mkOnComplete 100 7 41; mkOnComplete 100 7 42 ] |}.
Proof.
  apply (callback_of_initialised_controller
           (Sample.findVibrator (HalResult_ok tt) Sample.info_nothing_reported) 7 100 1 42
           empty_state
           (SampleRun.live_state (HalResult_ok tt) Sample.info_nothing_reported)).
  - exact state_ok_empty.
  - vm_compute. reflexivity.
  - apply rtc_once. apply (keeping_callback 1 (createCallback 1 41)).
    vm_compute. reflexivity.
Defined.
